(** * car-photo-app / vehicle_detection: bounding-box conversion and damage reports

    A shallow embedding of the two deterministic pieces of the Python code:

    - [VehiDEToYOLO.convert_bbox_to_yolo]  (convert_to_yolo.py, lines 42-62)
    - [DamageDetector.assess_severity] and [DamageDetector.generate_report]
      (inference.py, lines 145-183)

    Python numbers are modelled by exact rationals [Q]; Python exceptions by
    the [Raise] constructor of [result]; the Python objects that
    [generate_report] allocates, aliases and mutates live in an explicit
    heap. *)

From Stdlib Require Import QArith Qround Lqa.
From stdpp Require Import gmap strings list fin_maps pretty.

Local Open Scope string_scope.

(** ** Python exceptions and the error monad *)

Inductive exn : Type :=
| ValueError
| ZeroDivisionError
| KeyError
| TypeError.

Inductive result (A : Type) : Type :=
| Ok (a : A)
| Raise (e : exn).

Arguments Ok {A} a.
Arguments Raise {A} e.

Global Instance result_ret : MRet result := fun A a => Ok a.

Global Instance result_bind : MBind result := fun A B k r =>
  match r with
  | Ok a => k a
  | Raise e => Raise e
  end.


(** Python's true division [a / b]: raises [ZeroDivisionError] on a zero
    divisor, for ints and floats alike. *)
Definition py_div (a b : Q) : result Q :=
  if Qeq_bool b 0 then Raise ZeroDivisionError else Ok (a / b)%Q.

(** ** convert_to_yolo.py *)

Module VehiDEToYOLO.

Local Open Scope Q_scope.

(** [convert_bbox_to_yolo(self, bbox, img_width, img_height)].  The tuple
    assignment [x_min, y_min, x_max, y_max = bbox] raises [ValueError] unless
    [bbox] has exactly four elements. *)
Definition convert_bbox_to_yolo (bbox : list Q) (img_width img_height : Q)
  : result (list Q) :=
  match bbox with
  | [x_min; y_min; x_max; y_max] =>
      (* Calculate center and dimensions *)
      x_center ← py_div (x_min + x_max) 2;
      y_center ← py_div (y_min + y_max) 2;
      let width := x_max - x_min in
      let height := y_max - y_min in
      (* Normalize by image dimensions *)
      x_center ← py_div x_center img_width;
      y_center ← py_div y_center img_height;
      width ← py_div width img_width;
      height ← py_div height img_height;
      Ok [x_center; y_center; width; height]
  | _ => Raise ValueError
  end.

(** Modelled from the spec: the inverse direction of BBoxNormalizer
    ("converts an axis-aligned pixel bounding box into normalized center-form
    coordinates and back", "invertible given the same dimensions").  The
    repository has no denormalising function; this is the center-form
    inverse: corner = (center -/+ half extent) scaled by the image size. *)
Definition denormalize_bbox (yolo : list Q) (img_width img_height : Q)
  : result (list Q) :=
  match yolo with
  | [x_center; y_center; width; height] =>
      Ok [ (x_center - width / 2) * img_width;
           (y_center - height / 2) * img_height;
           (x_center + width / 2) * img_width;
           (y_center + height / 2) * img_height ]
  | _ => Raise ValueError
  end.

(** A pixel box lies fully inside a [W] x [H] image. *)
Definition inside_image (x1 y1 x2 y2 W H : Q) : Prop :=
  0 <= x1 /\ x1 <= x2 /\ x2 <= W /\ 0 <= y1 /\ y1 <= y2 /\ y2 <= H.

Definition in_unit (q : Q) : Prop := 0 <= q /\ q <= 1.

End VehiDEToYOLO.

(** ** inference.py *)

Module DamageDetector.

(** *** Detections

    [detect_damage] builds one dict per box with exactly these four keys;
    the functions below read ['type'] and ['confidence'] only. *)

Record formatted_bbox : Type := {
  x1 : Z;
  y1 : Z;
  x2 : Z;
  y2 : Z
}.

Record detection : Type := {
  type : string;
  confidence : Q;
  bbox : list Q;
  bbox_formatted : formatted_bbox
}.

(** *** The object store

    [generate_report] receives a reference to the caller's list, stores that
    same reference in the report, and fills a nested dict in place.  Objects
    therefore live in a heap and are named by locations. *)

Abbreviation loc := positive.

(** The dict built by [generate_report]; [damage_summary] and
    [detailed_damages] hold references. *)
Record report : Type := {
  image : string;
  total_damages : Z;
  damage_summary : loc;
  detailed_damages : loc;
  severity_assessment : string
}.

(** The dict built by the [/detect-damage] handler of api_server.py. *)
Record api_response : Type := {
  success : bool;
  filename : string;
  confidence_threshold : Q;
  processing_time : string;
  api_version : string;
  report_items : report
}.

Inductive obj : Type :=
| PyList (items : list detection)
| PyCounts (d : gmap string Z)
| PyReport (r : report)
| PyResponse (r : api_response).

Abbreviation heap := (gmap loc obj).

(** State-and-exception monad over the heap. *)
Definition M (A : Type) : Type := heap -> result (A * heap).

Global Instance M_ret : MRet M := fun A a h => Ok (a, h).

Global Instance M_bind : MBind M := fun A B k m h =>
  match m h with
  | Ok (a, h') => k a h'
  | Raise e => Raise e
  end.

Definition lift {A : Type} (r : result A) : M A := fun h =>
  match r with
  | Ok a => Ok (a, h)
  | Raise e => Raise e
  end.

Definition alloc (o : obj) : M loc := fun h =>
  let l := fresh (dom h) in Ok (l, <[l := o]> h).

Definition load (l : loc) : M obj := fun h =>
  match h !! l with
  | Some o => Ok (o, h)
  | None => Raise TypeError
  end.

Definition store (l : loc) (o : obj) : M unit := fun h =>
  Ok (tt, <[l := o]> h).

Definition load_list (l : loc) : M (list detection) :=
  o ← load l;
  match o with
  | PyList items => mret items
  | _ => lift (Raise TypeError)
  end.

Definition load_counts (l : loc) : M (gmap string Z) :=
  o ← load l;
  match o with
  | PyCounts d => mret d
  | _ => lift (Raise TypeError)
  end.

Definition load_report (l : loc) : M report :=
  o ← load l;
  match o with
  | PyReport r => mret r
  | _ => lift (Raise TypeError)
  end.

(** [d[k]] on a dict: [KeyError] when the key is absent. *)
Definition getitem (d : gmap string Z) (k : string) : result Z :=
  match d !! k with
  | Some v => Ok v
  | None => Raise KeyError
  end.

(** [for x in xs: body(x)]. *)
Fixpoint for_each {A : Type} (xs : list A) (body : A -> M unit) : M unit :=
  match xs with
  | [] => mret tt
  | x :: xs' => _ ← body x; for_each xs' body
  end.

(** Python's [sum] over numbers, starting from 0. *)
Definition sum_Q (xs : list Q) : Q := foldl Qplus 0%Q xs.
Definition sum_Z (xs : list Z) : Z := foldl Z.add 0%Z xs.

(** *** assess_severity

    The method only reads its argument, so it is a function of the list's
    contents.  [avg_confidence] is computed (its division can raise) and
    then never used. *)

Definition severe_damages : list string :=
  ["broken_part"; "glass_damage"; "crack"].

Definition assess_severity (damages : list detection) : result string :=
  match damages with
  | [] => Ok "No damage detected"
  | _ :: _ =>
      let total_damages := Z.of_nat (length damages) in
      avg_confidence ← py_div (sum_Q (confidence <$> damages))
                              (inject_Z total_damages);
      (* Severity based on number and type of damages *)
      let severe_count :=
        sum_Z ((fun _ => 1%Z) <$>
               filter (fun d => type d ∈ severe_damages) damages) in
      if ((3 <=? severe_count) || (5 <=? total_damages))%Z then Ok "Severe"
      else if ((1 <=? severe_count) || (3 <=? total_damages))%Z then Ok "Moderate"
      else if (1 <=? total_damages)%Z then Ok "Minor"
      else Ok "No damage"
  end.

(** *** generate_report

    The dict display evaluates its entries in order: [len(damages)], the
    empty summary dict, the [damages] reference itself, then
    [assess_severity(damages)].  The loop then updates the summary dict
    through [report['damage_summary']]. *)

Definition count_damage (rep : loc) (damage : detection) : M unit :=
  let damage_type := type damage in
  r ← load_report rep;
  counts ← load_counts (damage_summary r);
  _ ← (if negb (bool_decide (damage_type ∈ dom counts))
       then store (damage_summary r) (PyCounts (<[damage_type := 0%Z]> counts))
       else mret tt);
  r ← load_report rep;
  counts ← load_counts (damage_summary r);
  v ← lift (getitem counts damage_type);
  store (damage_summary r) (PyCounts (<[damage_type := (v + 1)%Z]> counts)).

Definition generate_report (damages : loc) (image_path : string) : M loc :=
  items ← load_list damages;
  let n := Z.of_nat (length items) in
  summary ← alloc (PyCounts ∅);
  items ← load_list damages;
  severity ← lift (assess_severity items);
  rep ← alloc (PyReport {| image := image_path;
                           total_damages := n;
                           damage_summary := summary;
                           detailed_damages := damages;
                           severity_assessment := severity |});
  (* Count damage types *)
  items ← load_list damages;
  _ ← for_each items (count_damage rep);
  mret rep.

(** *** The caller in api_server.py (lines 100-113)

    [api_response = {..., **report}] copies the report's entries into a new
    dict; the report itself is only read. *)

Definition detect_damage_response (damages : loc) (file_name : string)
    (confidence_arg : Q) : M loc :=
  rep ← generate_report damages file_name;
  r ← load_report rep;
  alloc (PyResponse {| success := true;
                       filename := file_name;
                       confidence_threshold := confidence_arg;
                       processing_time := "< 1s";
                       api_version := "1.0.0";
                       report_items := r |}).

(** *** The specification's vocabulary

    The spec names the severity tiers [NoDamage], [Minor], [Moderate] and
    [Severe]; the code returns display strings. *)

Inductive Severity : Type := NoDamage | Minor | Moderate | Severe.

Definition severity_of_label (label : string) : option Severity :=
  if decide (label = "No damage detected") then Some NoDamage
  else if decide (label = "No damage") then Some NoDamage
  else if decide (label = "Minor") then Some Minor
  else if decide (label = "Moderate") then Some Moderate
  else if decide (label = "Severe") then Some Severe
  else None.

Definition rank (s : Severity) : nat :=
  match s with
  | NoDamage => 0
  | Minor => 1
  | Moderate => 2
  | Severe => 3
  end.

Definition is_severe_type (t : string) : bool :=
  bool_decide (t = "broken_part" \/ t = "glass_damage" \/ t = "crack").

(** Number of detections whose type is one of the three severe types. *)
Definition severe_count (ds : list detection) : nat :=
  length (List.filter (fun d => is_severe_type (type d)) ds).

(** The ordered severity rules 1-5 of the spec, first match wins; [None]
    when no rule applies. *)
Definition severity_rules (ds : list detection) : option Severity :=
  match ds with
  | [] => Some NoDamage
  | _ :: _ =>
      let total := length ds in
      if decide (3 <= severe_count ds \/ 5 <= total) then Some Severe
      else if decide (1 <= severe_count ds \/ 3 <= total) then Some Moderate
      else if decide (1 <= total) then Some Minor
      else None
  end.

(** Number of detections carrying type [t]. *)
Definition occurrences (t : string) (ds : list detection) : nat :=
  length (List.filter (fun d => bool_decide (type d = t)) ds).

(** Sum of the values of a counting dict. *)
Definition sum_counts (d : gmap string Z) : Z :=
  map_fold (fun _ v acc => (v + acc)%Z) 0%Z d.

(** The tier of the label [assess_severity] returns, when it returns one
    of its five labels. *)
Definition severity (ds : list detection) : option Severity :=
  match assess_severity ds with
  | Ok label => severity_of_label label
  | Raise _ => None
  end.

(** The tiers of the spec for lists without severe types, by total count:
    0, 1-2, 3-4, 5+. *)
Definition tier (total : nat) : Severity :=
  match total with
  | 0 => NoDamage
  | 1 | 2 => Minor
  | 3 | 4 => Moderate
  | _ => Severe
  end.

(** The label of a non-empty list in terms of its two counts. *)
Definition label_of_counts (sev total : nat) : string :=
  if (3 <=? sev)%nat || (5 <=? total)%nat then "Severe"
  else if (1 <=? sev)%nat || (3 <=? total)%nat then "Moderate"
  else "Minor".

(** What one iteration of the counting loop does to the summary dict, and
    what the whole loop does to an empty one. *)
Definition bump (counts : gmap string Z) (t : string) : gmap string Z :=
  <[t := (default 0%Z (counts !! t) + 1)%Z]> counts.

Definition tally (ds : list detection) : gmap string Z :=
  foldl bump ∅ (type <$> ds).

(** A report read back from the heap together with the two objects it
    refers to. *)
Definition read_report (h : heap) (rep : loc)
  : option (report * gmap string Z * list detection) :=
  match h !! rep with
  | Some (PyReport r) =>
      match h !! damage_summary r, h !! detailed_damages r with
      | Some (PyCounts counts), Some (PyList items) => Some (r, counts, items)
      | _, _ => None
      end
  | _ => None
  end.

(** Sample detections and a heap holding one list, for the examples. *)
Definition sample (t : string) (c : Q) : detection :=
  {| type := t;
     confidence := c;
     bbox := [12.5; 40; 96; 120.25]%Q;
     bbox_formatted := {| x1 := 12; y1 := 40; x2 := 96; y2 := 120 |} |}.

Definition sample_wide (t : string) (c : Q) : detection :=
  {| type := t;
     confidence := c;
     bbox := [0; 0; 640; 480]%Q;
     bbox_formatted := {| x1 := 0; y1 := 0; x2 := 640; y2 := 480 |} |}.

Definition heap_with (l : loc) (ds : list detection) : heap :=
  {[ l := PyList ds ]}.

End DamageDetector.

(** ** inference.py: the detector around the model *)

Module Inference.
Import DamageDetector.

(** [self.damage_classes] of [DamageDetector.__init__]. *)
Definition damage_classes : gmap Z string :=
  list_to_map
    [ (0, "scratch"); (1, "dent"); (2, "crack"); (3, "glass_damage");
      (4, "paint_damage"); (5, "bumper_damage"); (6, "headlight_damage");
      (7, "tire_damage"); (8, "rust"); (9, "broken_part") ]%Z.

(** What the detection library hands back: per image a result whose
    [boxes] may be [None]; per box the class, the confidence and the four
    corner coordinates ([box.cls[0]], [box.conf[0]], [box.xyxy[0]]). *)
Record yolo_box : Type := {
  cls : Q;
  conf : Q;
  xyxy : Q * Q * Q * Q
}.

Record yolo_result : Type := {
  boxes : option (list yolo_box)
}.

(** The library and the file system, as far as the detector uses them. *)
Record ultralytics (Model : Type) : Type := {
  path_exists : string -> bool;
  YOLO : string -> Model;
  predict : Model -> string -> Q -> list yolo_result
}.

Arguments path_exists {Model} _ _.
Arguments YOLO {Model} _ _.
Arguments predict {Model} _ _ _ _.

Record detector (Model : Type) : Type := {
  model_path : string;
  model : option Model
}.

Arguments model_path {Model} _.
Arguments model {Model} _.

(** Python's [int(x)] on a number: truncation toward zero. *)
Definition py_int (q : Q) : Z := Z.quot (Qnum q) (Z.pos (Qden q)).

(** [load_model(self)]: the returned flag and the detector afterwards. *)
Definition load_model {Model : Type} (U : ultralytics Model)
    (self : detector Model) : bool * detector Model :=
  if negb (path_exists U (model_path self)) then (false, self)
  else (true, {| model_path := model_path self;
                 model := Some (YOLO U (model_path self)) |}).

(** The dict built per box in [detect_damage] (lines 67-84). *)
Definition damage_info (box : yolo_box) : detection :=
  let class_id := py_int (cls box) in
  let confidence_ := conf box in
  let '(b0, b1, b2, b3) := xyxy box in
  let damage_type :=
    default ("unknown_" +:+ pretty class_id) (damage_classes !! class_id) in
  {| type := damage_type;
     confidence := confidence_;
     bbox := [b0; b1; b2; b3];
     bbox_formatted := {| x1 := py_int b0; y1 := py_int b1;
                          x2 := py_int b2; y2 := py_int b3 |} |}.

(** The two nested loops that fill [damages] by [append]. *)
Definition collect_damages (results : list yolo_result) : list detection :=
  foldl (fun damages result =>
           match boxes result with
           | Some bs => foldl (fun damages box => (damages ++ [damage_info box])%list)
                              damages bs
           | None => damages
           end)
        [] results.

(** [detect_damage(self, image_path, confidence_threshold)]: [None] when
    the model cannot be loaded or the image is missing. *)
Definition detect_damage {Model : Type} (U : ultralytics Model)
    (self : detector Model) (image_path : string) (confidence_threshold : Q)
  : option (list detection) * detector Model :=
  let '(loaded, self) :=
    match model self with
    | Some _ => (true, self)
    | None => load_model U self
    end in
  if negb loaded then (None, self)
  else if negb (path_exists U image_path) then (None, self)
  else match model self with
       | Some m => (Some (collect_damages (predict U m image_path confidence_threshold)),
                    self)
       | None => (None, self)
       end.

(** The colour table of [visualize_detections] and its lookup
    [colors.get(damage_type, (255, 255, 255))]. *)
Definition colors : gmap string (Z * Z * Z) :=
  list_to_map
    [ ("scratch", (0, 255, 255)); ("dent", (255, 0, 0)); ("crack", (0, 0, 255));
      ("glass_damage", (255, 255, 0)); ("paint_damage", (255, 0, 255));
      ("bumper_damage", (0, 255, 0)); ("headlight_damage", (128, 0, 128));
      ("tire_damage", (255, 165, 0)); ("rust", (139, 69, 19));
      ("broken_part", (128, 128, 128)) ]%Z.

Definition color_of (damage_type : string) : Z * Z * Z :=
  default (255, 255, 255)%Z (colors !! damage_type).

(** Class ids whose name is one of [severe_damages]. *)
Definition severe_class (class_id : Z) : bool :=
  bool_decide (class_id = 2 \/ class_id = 3 \/ class_id = 9)%Z.

Definition box_count (results : list yolo_result) : nat :=
  length (concat ((fun r => default [] (boxes r)) <$> results)).

End Inference.

(** ** convert_to_yolo.py: labels from annotations *)

Module Annotations.
Import VehiDEToYOLO.

(** [self.damage_classes] of [VehiDEToYOLO.__init__], in insertion order. *)
Definition damage_class_items : list (string * Z) :=
  [ ("scratch", 0); ("dent", 1); ("crack", 2); ("glass_damage", 3);
    ("paint_damage", 4); ("bumper_damage", 5); ("headlight_damage", 6);
    ("tire_damage", 7); ("rust", 8); ("broken_part", 9) ]%Z.

Definition damage_classes : gmap string Z := list_to_map damage_class_items.

(** [nc] and [names] as [create_data_yaml] writes them:
    [len(self.damage_classes)] and [list(self.damage_classes.keys())]. *)
Definition nc : nat := length damage_class_items.
Definition names : list string := damage_class_items.*1.

(** One entry of an annotation's damage list, seen through the four
    [damage.get(...)] calls; [None] is a missing key. *)
Record damage_annotation : Type := {
  get_type : option string;
  get_class : option string;
  get_bbox : option (list Q);
  get_bounding_box : option (list Q)
}.

(** Truth values of the operands of [or] and [and]. *)
Definition truthy_str (v : option string) : bool :=
  match v with
  | Some s => negb (String.eqb s "")
  | None => false
  end.

Definition truthy_list {A : Type} (v : option (list A)) : bool :=
  match v with
  | Some (_ :: _) => true
  | _ => false
  end.

(** [a or b]. *)
Definition py_or {A : Type} (truthy : A -> bool) (a b : A) : A :=
  if truthy a then a else b.

(** [damage_type in self.damage_classes]; [None] is not a key. *)
Definition in_damage_classes (damage_type : option string) : bool :=
  match damage_type with
  | Some t => bool_decide (t ∈ dom damage_classes)
  | None => false
  end.

(** A line of a label file before it is formatted: the class id and the
    four normalised numbers. *)
Abbreviation label := (Z * list Q)%type.

(** The loop over [damages] inside [with open(label_path, 'w')] (lines
    107-120): the lines written so far, and the exception that ended the
    loop if one was raised. *)
Fixpoint write_labels (damages : list damage_annotation)
    (img_width img_height : Z) (label_file : list label)
  : list label * option exn :=
  match damages with
  | [] => (label_file, None)
  | damage :: rest =>
      let damage_type := py_or truthy_str (get_type damage) (get_class damage) in
      let bbox := py_or truthy_list (get_bbox damage) (get_bounding_box damage) in
      if in_damage_classes damage_type && truthy_list bbox then
        match
          class_id ← DamageDetector.getitem damage_classes (default "" damage_type);
          yolo_bbox ← convert_bbox_to_yolo (default [] bbox)
                        (inject_Z img_width) (inject_Z img_height);
          mret (class_id, yolo_bbox)
        with
        | Ok line => write_labels rest img_width img_height (label_file ++ [line])%list
        | Raise e => (label_file, Some e)
        end
      else write_labels rest img_width img_height label_file
  end.

(** The entries the loop acts on: known effective type, non-empty
    effective box. *)
Definition effective_type (damage : damage_annotation) : option string :=
  py_or truthy_str (get_type damage) (get_class damage).

Definition effective_bbox (damage : damage_annotation) : option (list Q) :=
  py_or truthy_list (get_bbox damage) (get_bounding_box damage).

Definition selected (damage : damage_annotation) : bool :=
  in_damage_classes (effective_type damage) && truthy_list (effective_bbox damage).

(** The line for one selected entry, or the exception raised on the way. *)
Definition line_result (damage : damage_annotation) (img_width img_height : Z)
  : result label :=
  class_id ← DamageDetector.getitem damage_classes
               (default "" (effective_type damage));
  yolo_bbox ← convert_bbox_to_yolo (default [] (effective_bbox damage))
                (inject_Z img_width) (inject_Z img_height);
  mret (class_id, yolo_bbox).

(** [line] is what the loop writes for [damage]: the class id of its
    effective type and the conversion of its effective box. *)
Definition written_for (img_width img_height : Z) (line : label)
    (damage : damage_annotation) : Prop :=
  exists t,
    effective_type damage = Some t
    /\ damage_classes !! t = Some line.1
    /\ convert_bbox_to_yolo (default [] (effective_bbox damage))
         (inject_Z img_width) (inject_Z img_height) = Ok line.2.

(** The conversion of a selected entry's box succeeds. *)
Definition converts (img_width img_height : Z) (damage : damage_annotation)
  : Prop :=
  selected damage = true ->
  exists yolo_bbox,
    convert_bbox_to_yolo (default [] (effective_bbox damage))
      (inject_Z img_width) (inject_Z img_height) = Ok yolo_bbox.

(** Sample annotation entries for the examples. *)
Definition entry (t c : option string) (b bb : option (list Q))
  : damage_annotation :=
  {| get_type := t; get_class := c; get_bbox := b; get_bounding_box := bb |}.

End Annotations.

(** ** api_server.py: the /detect-damage handler *)

Module ApiServer.
Import DamageDetector Inference.

(** What can be raised inside the handler's [try]. *)
Inductive py_exception : Type :=
| HTTPException (status_code : Z) (detail : string)
| AttributeError
| UploadError (message : string)
| ReportError (e : exn).

Inductive http_result : Type :=
| JSONResponse (body : loc)
| HTTPError (status_code : Z) (detail : string).

(** The body of the outer [try] (lines 73-117).  [content_type] is
    [file.content_type], which may be [None]; [upload] is the outcome of
    reading and decoding the upload and writing the temporary file: its
    path, or the message of the exception raised on the way.  The list
    returned by [detect_damage] becomes a heap object. *)
Definition detect_damage_body {Model : Type} (U : ultralytics Model)
    (self : detector Model) (content_type : option string)
    (file_name : string) (upload : string + string) (confidence_arg : Q)
    (h : heap)
  : (py_exception + loc) * detector Model * heap :=
  match content_type with
  | None => (inl AttributeError, self, h)
  | Some ct =>
      if negb (String.prefix "image/" ct)
      then (inl (HTTPException 400 "File must be an image"), self, h)
      else
        match upload with
        | inr message => (inl (UploadError message), self, h)
        | inl temp_path =>
            let '(damages, self) := detect_damage U self temp_path confidence_arg in
            match damages with
            | None => (inl (HTTPException 500 "Damage detection failed"), self, h)
            | Some items =>
                match (damages ← alloc (PyList items);
                       detect_damage_response damages file_name confidence_arg) h with
                | Ok (response, h') => (inr response, self, h')
                | Raise e => (inl (ReportError e), self, h)
                end
            end
        end
  end.

(** The handler: [except Exception as e] turns whatever was raised into
    [HTTPException(500, f"Processing error: {str(e)}")].  [str_exc] is
    Python's [str] on exceptions. *)
Definition detect_damage_endpoint {Model : Type} (U : ultralytics Model)
    (str_exc : py_exception -> string)
    (self : detector Model) (content_type : option string)
    (file_name : string) (upload : string + string) (confidence_arg : Q)
    (h : heap)
  : http_result * detector Model * heap :=
  match detect_damage_body U self content_type file_name upload confidence_arg h with
  | (inr response, self, h') => (JSONResponse response, self, h')
  | (inl e, self, h') =>
      (HTTPError 500 ("Processing error: " +:+ str_exc e), self, h')
  end.

End ApiServer.

(** ** Vocabulary for the properties below *)

Module Views.
Import DamageDetector Inference.

(** The tier as a function of the two counts. *)
Definition severity_of_counts (sev total : nat) : Severity :=
  match total with
  | 0 => NoDamage
  | S _ =>
      if (3 <=? sev)%nat || (5 <=? total)%nat then Severe
      else if (1 <=? sev)%nat || (3 <=? total)%nat then Moderate
      else Minor
  end.

(** Two runs agree: the same exception, or the same numbers up to the
    equality of rationals. *)
Definition same_outcome (r1 r2 : result (list Q)) : Prop :=
  match r1, r2 with
  | Ok l1, Ok l2 => Forall2 Qeq l1 l2
  | Raise e1, Raise e2 => e1 = e2
  | _, _ => False
  end.

(** All boxes of all results, in the order the loops visit them. *)
Definition all_boxes (results : list yolo_result) : list yolo_box :=
  concat ((fun r => default [] (boxes r)) <$> results).

(** The type [damage_info] gives to a class id. *)
Definition damage_type_of (class_id : Z) : string :=
  default ("unknown_" +:+ pretty class_id) (damage_classes !! class_id).

(** A library for the examples: the model file and one image exist, and
    the model finds a crack, a box of an unknown class and a dent. *)
Definition sample_boxes : list yolo_result :=
  [ {| boxes := Some [ {| cls := 2; conf := 0.9; xyxy := (10.5, 20, 30.25, 40)%Q |};
                       {| cls := 12; conf := 0.6; xyxy := (0, 0, 5, 5)%Q |} ] |};
    {| boxes := None |};
    {| boxes := Some [ {| cls := 1; conf := 0.7; xyxy := (1, 2, 3, 4)%Q |} ] |} ].

Definition sample_library : ultralytics unit :=
  {| path_exists := fun p => String.eqb p "best.pt" || String.eqb p "car.jpg";
     YOLO := fun _ => tt;
     predict := fun _ _ _ => sample_boxes |}.

End Views.

(** * Properties of convert_bbox_to_yolo *)

Section BBoxNormalizer.
Import VehiDEToYOLO.
Local Open Scope Q_scope.

Lemma py_div_nonzero (a b : Q) : ~ b == 0 -> py_div a b = Ok (a / b).
Proof.
  intros Hb. unfold py_div.
  destruct (Qeq_bool b 0) eqn:E; [|reflexivity].
  apply Qeq_bool_iff in E. contradiction.
Qed.

Lemma py_div_zero (a b : Q) : b == 0 -> py_div a b = Raise ZeroDivisionError.
Proof.
  intros Hb. unfold py_div.
  apply Qeq_bool_iff in Hb. now rewrite Hb.
Qed.

Lemma py_div_two (a : Q) : py_div a 2 = Ok (a / 2).
Proof. reflexivity. Qed.

(** With non-zero dimensions the four quotients are returned as they are. *)
Lemma convert_bbox_to_yolo_nonzero (x1 y1 x2 y2 W H : Q) :
  ~ W == 0 -> ~ H == 0 ->
  convert_bbox_to_yolo [x1; y1; x2; y2] W H
  = Ok [((x1 + x2) / 2) / W; ((y1 + y2) / 2) / H; (x2 - x1) / W; (y2 - y1) / H].
Proof.
  intros HW HH. unfold convert_bbox_to_yolo.
  rewrite !py_div_two. cbn [mbind result_bind].
  rewrite !(py_div_nonzero _ W HW). cbn [mbind result_bind].
  rewrite !(py_div_nonzero _ H HH). reflexivity.
Qed.

(** A zero dimension makes one of the divisions raise. *)
Lemma convert_bbox_to_yolo_zero (x1 y1 x2 y2 W H : Q) :
  W == 0 \/ H == 0 ->
  convert_bbox_to_yolo [x1; y1; x2; y2] W H = Raise ZeroDivisionError.
Proof.
  intros Hz. unfold convert_bbox_to_yolo.
  rewrite !py_div_two. cbn [mbind result_bind].
  destruct (Qeq_dec W 0) as [HW | HW].
  - rewrite !(py_div_zero _ W HW). reflexivity.
  - destruct Hz as [? | HH]; [contradiction|].
    rewrite !(py_div_nonzero _ W HW). cbn [mbind result_bind].
    rewrite !(py_div_zero _ H HH). reflexivity.
Qed.

Lemma half_eq (a : Q) : a / 2 == a * (1 # 2).
Proof. reflexivity. Qed.

Lemma center_in_unit (a b d : Q) :
  0 < d -> 0 <= a -> a <= b -> b <= d -> in_unit (((a + b) / 2) / d).
Proof.
  intros Hd Ha Hab Hb. split.
  - apply Qle_shift_div_l; [assumption|]. rewrite half_eq. lra.
  - apply Qle_shift_div_r; [assumption|]. rewrite half_eq. lra.
Qed.

Lemma extent_in_unit (a b d : Q) :
  0 < d -> 0 <= a -> a <= b -> b <= d -> in_unit ((b - a) / d).
Proof.
  intros Hd Ha Hab Hb. split.
  - apply Qle_shift_div_l; [assumption|]. lra.
  - apply Qle_shift_div_r; [assumption|]. lra.
Qed.





Ltac q_closed := unfold inside_image, in_unit, Qle, Qlt, Qeq; simpl; lia.





(** Denormalising the four quotients gives back the corners, up to the
    equality of rationals. *)
Lemma denormalize_quotients (x1 y1 x2 y2 W H : Q) :
  ~ W == 0 -> ~ H == 0 ->
  exists x1' y1' x2' y2',
    denormalize_bbox
      [((x1 + x2) / 2) / W; ((y1 + y2) / 2) / H; (x2 - x1) / W; (y2 - y1) / H]
      W H = Ok [x1'; y1'; x2'; y2']
    /\ x1' == x1 /\ y1' == y1 /\ x2' == x2 /\ y2' == y2.
Proof.
  intros HW HH. eexists _, _, _, _.
  split; [reflexivity|].
  repeat split; field; assumption.
Qed.

Lemma denormalize_bbox_proper (a b c d a' b' c' d' W H : Q) :
  a == a' -> b == b' -> c == c' -> d == d' ->
  exists p q r s p' q' r' s',
    denormalize_bbox [a; b; c; d] W H = Ok [p; q; r; s]
    /\ denormalize_bbox [a'; b'; c'; d'] W H = Ok [p'; q'; r'; s']
    /\ p == p' /\ q == q' /\ r == r' /\ s == s'.
Proof.
  intros Ha Hb Hc Hd. eexists _, _, _, _, _, _, _, _.
  split; [reflexivity|]. split; [reflexivity|].
  rewrite Ha, Hb, Hc, Hd. repeat split; reflexivity.
Qed.

(** C4: for a box inside an image of positive size, normalising with
    [convert_bbox_to_yolo] and denormalising with the same dimensions gives
    back the pixel box (exactly, over the rationals); hence a box with the
    same normalised form is the same box. *)
Theorem normalize_denormalize_roundtrip (x1 y1 x2 y2 W H : Q) :
  0 < W -> 0 < H -> inside_image x1 y1 x2 y2 W H ->
  exists yolo x1' y1' x2' y2',
    convert_bbox_to_yolo [x1; y1; x2; y2] W H = Ok yolo
    /\ denormalize_bbox yolo W H = Ok [x1'; y1'; x2'; y2']
    /\ x1' == x1 /\ y1' == y1 /\ x2' == x2 /\ y2' == y2
    /\ (forall u1 v1 u2 v2 yolo',
          convert_bbox_to_yolo [u1; v1; u2; v2] W H = Ok yolo' ->
          Forall2 Qeq yolo' yolo ->
          u1 == x1 /\ v1 == y1 /\ u2 == x2 /\ v2 == y2).
Proof.
  intros HW HH _.
  assert (HW0 : ~ W == 0) by lra.
  assert (HH0 : ~ H == 0) by lra.
  destruct (denormalize_quotients x1 y1 x2 y2 W H HW0 HH0)
    as (a & b & c & d & Hden & Ha & Hb & Hc & Hd).
  eexists _, a, b, c, d.
  split; [apply (convert_bbox_to_yolo_nonzero _ _ _ _ _ _ HW0 HH0)|].
  split; [exact Hden|].
  do 4 (split; [assumption|]).
  intros u1 v1 u2 v2 yolo' Hconv Hsame.
  rewrite (convert_bbox_to_yolo_nonzero _ _ _ _ _ _ HW0 HH0) in Hconv.
  injection Hconv as <-.
  apply Forall2_cons_1 in Hsame as [E1 Hsame].
  apply Forall2_cons_1 in Hsame as [E2 Hsame].
  apply Forall2_cons_1 in Hsame as [E3 Hsame].
  apply Forall2_cons_1 in Hsame as [E4 _].
  destruct (denormalize_quotients u1 v1 u2 v2 W H HW0 HH0)
    as (a' & b' & c' & d' & Hden' & Ha' & Hb' & Hc' & Hd').
  destruct (denormalize_bbox_proper _ _ _ _ _ _ _ _ W H E1 E2 E3 E4)
    as (p & q & r & s & p' & q' & r' & s' & Hp & Hp' & Ep & Eq & Er & Es).
  rewrite Hden' in Hp. rewrite Hden in Hp'.
  injection Hp as <- <- <- <-. injection Hp' as <- <- <- <-.
  rewrite <- Ha', <- Hb', <- Hc', <- Hd', <- Ha, <- Hb, <- Hc, <- Hd.
  auto.
Qed.

Lemma normalize_denormalize_roundtrip_witness :
  (exists yolo x1' y1' x2' y2',
      convert_bbox_to_yolo [10; 20; 30; 40] 100 200 = Ok yolo
      /\ denormalize_bbox yolo 100 200 = Ok [x1'; y1'; x2'; y2']
      /\ x1' == 10 /\ y1' == 20 /\ x2' == 30 /\ y2' == 40)
  /\ (20 # 2) == 10.
Proof.
  destruct (normalize_denormalize_roundtrip 10 20 30 40 100 200)
    as (yolo & a & b & c & d & Hrun & Hden & Ha & Hb & Hc & Hd & Hinj);
    [q_closed | q_closed | q_closed |].
  split; [exists yolo, a, b, c, d; repeat split; assumption|].
  injection Hrun as <-.
  destruct (Hinj (20 # 2) 20 30 40 _ eq_refl) as [E _]; [|exact E].
  repeat constructor; q_closed.
Defined.

End BBoxNormalizer.

(** * Properties of assess_severity *)

Section SeverityAssessor.
Import DamageDetector.

Lemma sum_Z_ones {A : Type} (l : list A) (acc : Z) :
  foldl Z.add acc ((fun _ => 1%Z) <$> l) = (acc + Z.of_nat (length l))%Z.
Proof.
  revert acc. induction l as [|x l IH]; intros acc; simpl.
  - lia.
  - rewrite IH. lia.
Qed.

Lemma severe_type_elem (t : string) :
  t ∈ severe_damages <-> is_severe_type t = true.
Proof.
  unfold severe_damages, is_severe_type.
  rewrite bool_decide_eq_true, !elem_of_cons, elem_of_nil. tauto.
Qed.

Lemma severe_filter_length (ds : list detection) :
  length (filter (fun d => type d ∈ severe_damages) ds) = severe_count ds.
Proof.
  unfold severe_count. induction ds as [|d ds IH]; [reflexivity|].
  rewrite filter_cons. simpl.
  destruct (decide (type d ∈ severe_damages)) as [Hin | Hnin].
  - apply severe_type_elem in Hin. rewrite Hin. simpl. now rewrite IH.
  - destruct (is_severe_type (type d)) eqn:E.
    + apply severe_type_elem in E. contradiction.
    + exact IH.
Qed.

Lemma avg_confidence_defined (num : Q) (n : nat) :
  py_div num (inject_Z (Z.of_nat (S n))) = Ok (num / inject_Z (Z.of_nat (S n)))%Q.
Proof.
  unfold py_div.
  destruct (Qeq_bool (inject_Z (Z.of_nat (S n))) 0) eqn:E; [|reflexivity].
  apply Qeq_bool_iff in E. unfold Qeq in E. simpl in E. lia.
Qed.

Lemma assess_severity_nonempty (d : detection) (ds : list detection) :
  assess_severity (d :: ds)
  = Ok (label_of_counts (severe_count (d :: ds)) (length (d :: ds))).
Proof.
  unfold assess_severity. cbn [length].
  rewrite avg_confidence_defined. cbn [mbind result_bind].
  unfold sum_Z. rewrite sum_Z_ones, severe_filter_length.
  unfold label_of_counts.
  set (sc := severe_count (d :: ds)). set (n := length (d :: ds)).
  assert (Hn : (1 <= n)%nat) by (subst n; simpl; lia).
  clearbody sc n.
  repeat match goal with
         | |- context [(?a <=? ?b)%Z] => destruct (Z.leb_spec a b)
         | |- context [(?a <=? ?b)%nat] => destruct (Nat.leb_spec a b)
         end; simpl; try reflexivity; lia.
Qed.

Lemma assess_severity_total (ds : list detection) :
  exists label, assess_severity ds = Ok label.
Proof.
  destruct ds as [|d ds]; [now exists "No damage detected"|].
  rewrite assess_severity_nonempty. eauto.
Qed.

(** C1: the label returned by [assess_severity] is the tier chosen by the
    ordered rules of the spec (empty list: NoDamage; severe_count >= 3 or
    total >= 5: Severe; else severe_count >= 1 or total >= 3: Moderate; else
    total >= 1: Minor).  One crack gives Moderate and three cracks give
    Severe, whatever their confidences and boxes. *)
Theorem assess_severity_ordered_rules :
  (forall ds : list detection,
      exists label sev,
        assess_severity ds = Ok label
        /\ severity_of_label label = Some sev
        /\ severity_rules ds = Some sev)
  /\ (forall c b f,
        assess_severity
          [{| type := "crack"; confidence := c; bbox := b; bbox_formatted := f |}]
        = Ok "Moderate")
  /\ (forall c1 b1 f1 c2 b2 f2 c3 b3 f3,
        assess_severity
          [{| type := "crack"; confidence := c1; bbox := b1; bbox_formatted := f1 |};
           {| type := "crack"; confidence := c2; bbox := b2; bbox_formatted := f2 |};
           {| type := "crack"; confidence := c3; bbox := b3; bbox_formatted := f3 |}]
        = Ok "Severe").
Proof.
  split; [|split].
  - intros [|d ds].
    + exists "No damage detected", NoDamage. repeat split.
    + rewrite assess_severity_nonempty.
      unfold label_of_counts, severity_rules.
      set (sc := severe_count (d :: ds)). set (n := length (d :: ds)).
      assert (Hn : 1 <= n) by (subst n; simpl; lia).
      clearbody sc n.
      destruct (decide (3 <= sc \/ 5 <= n)) as [H1 | H1].
      { exists "Severe", Severe.
        destruct (Nat.leb_spec 3 sc), (Nat.leb_spec 5 n);
          simpl; repeat split; lia. }
      destruct (decide (1 <= sc \/ 3 <= n)) as [H2 | H2].
      { exists "Moderate", Moderate.
        destruct (Nat.leb_spec 3 sc), (Nat.leb_spec 5 n),
                 (Nat.leb_spec 1 sc), (Nat.leb_spec 3 n);
          simpl; repeat split; lia. }
      rewrite decide_True by exact Hn.
      exists "Minor", Minor.
      destruct (Nat.leb_spec 3 sc), (Nat.leb_spec 5 n),
               (Nat.leb_spec 1 sc), (Nat.leb_spec 3 n);
        simpl; repeat split; lia.
  - intros c b f. now rewrite assess_severity_nonempty.
  - intros. now rewrite assess_severity_nonempty.
Qed.

Lemma severity_non_severe (ds : list detection) :
  severe_count ds = 0 -> severity ds = Some (tier (length ds)).
Proof.
  intros Hsc. unfold severity.
  destruct ds as [|d ds]; [reflexivity|].
  rewrite assess_severity_nonempty, Hsc. cbn [length].
  destruct (length ds) as [|[|[|[|n]]]]; reflexivity.
Qed.

Lemma tier_monotone (m n : nat) : m <= n -> rank (tier m) <= rank (tier n).
Proof.
  intros Hmn.
  do 5 (destruct m as [|m]; [do 5 (destruct n as [|n]; simpl; try lia)|]).
  do 5 (destruct n as [|n]; [lia|]). simpl. lia.
Qed.

(** C7: among lists without a severe type, the severity is fixed by the
    total count (0: NoDamage, 1-2: Minor, 3-4: Moderate, 5+: Severe) and
    never decreases when the count grows. *)
Theorem severity_monotone_non_severe (ds1 ds2 : list detection) :
  severe_count ds1 = 0 -> severe_count ds2 = 0 ->
  length ds1 <= length ds2 ->
  exists s1 s2,
    severity ds1 = Some s1 /\ severity ds2 = Some s2
    /\ s1 = tier (length ds1) /\ s2 = tier (length ds2)
    /\ rank s1 <= rank s2.
Proof.
  intros H1 H2 Hlen.
  exists (tier (length ds1)), (tier (length ds2)).
  split; [now apply severity_non_severe|].
  split; [now apply severity_non_severe|].
  split; [reflexivity|]. split; [reflexivity|].
  now apply tier_monotone.
Qed.

Lemma severity_monotone_non_severe_witness :
  exists s1 s2,
    severity [sample "dent" 0.9; sample "scratch" 0.6] = Some s1
    /\ severity [sample "rust" 0.7; sample "dent" 0.8; sample "unknown_12" 0.5]
       = Some s2
    /\ s1 = Minor /\ s2 = Moderate /\ rank s1 <= rank s2.
Proof.
  apply (severity_monotone_non_severe
           [sample "dent" 0.9; sample "scratch" 0.6]
           [sample "rust" 0.7; sample "dent" 0.8; sample "unknown_12" 0.5]).
  - reflexivity.
  - reflexivity.
  - simpl. lia.
Defined.

Lemma severe_count_types (ds : list detection) :
  severe_count ds = length (List.filter is_severe_type (type <$> ds)).
Proof.
  unfold severe_count. induction ds as [|d ds IH]; [reflexivity|].
  simpl. destruct (is_severe_type (type d)); simpl; now rewrite IH.
Qed.

Lemma assess_severity_counts (ds1 ds2 : list detection) :
  length ds1 = length ds2 -> severe_count ds1 = severe_count ds2 ->
  assess_severity ds1 = assess_severity ds2.
Proof.
  intros Hlen Hsc.
  destruct ds1 as [|d1 ds1], ds2 as [|d2 ds2]; try discriminate Hlen.
  - reflexivity.
  - rewrite !assess_severity_nonempty. now rewrite Hlen, Hsc.
Qed.

(** C9: the label depends only on the total count and on the number of
    severe-type detections; lists with the same types in the same order get
    the same label, whatever their confidences and boxes. *)
Theorem assess_severity_depends_on_counts (ds1 ds2 : list detection) :
  (ds1 <> [] -> ds2 <> [] ->
   length ds1 = length ds2 -> severe_count ds1 = severe_count ds2 ->
   assess_severity ds1 = assess_severity ds2)
  /\ (type <$> ds1 = type <$> ds2 ->
      assess_severity ds1 = assess_severity ds2).
Proof.
  split.
  - intros _ _. apply assess_severity_counts.
  - intros Hty. apply assess_severity_counts.
    + rewrite <- (length_fmap type ds1), <- (length_fmap type ds2).
      now rewrite Hty.
    + rewrite !severe_count_types. now rewrite Hty.
Qed.

Lemma assess_severity_depends_on_counts_witness :
  assess_severity [sample "crack" 0.95; sample "dent" 0.51]
  = assess_severity [sample_wide "scratch" 0.6; sample_wide "glass_damage" 0.7]
  /\ assess_severity [sample "crack" 0.95; sample "dent" 0.51]
     = assess_severity [sample_wide "crack" 0.55; sample_wide "dent" 0.99].
Proof.
  split.
  - apply (proj1 (assess_severity_depends_on_counts
                    [sample "crack" 0.95; sample "dent" 0.51]
                    [sample_wide "scratch" 0.6; sample_wide "glass_damage" 0.7]));
      [discriminate | discriminate | reflexivity | reflexivity].
  - apply (proj2 (assess_severity_depends_on_counts
                    [sample "crack" 0.95; sample "dent" 0.51]
                    [sample_wide "crack" 0.55; sample_wide "dent" 0.99])).
    reflexivity.
Defined.

End SeverityAssessor.

(** * Properties of generate_report *)

Section ReportBuilder.
Import DamageDetector.

Lemma bind_run {A B : Type} (m : M A) (k : A -> M B) (h : heap) :
  (m ≫= k) h = match m h with
               | Ok (a, h') => k a h'
               | Raise e => Raise e
               end.
Proof. reflexivity. Qed.

Lemma load_list_run (h : heap) (l : loc) (items : list detection) :
  h !! l = Some (PyList items) -> load_list l h = Ok (items, h).
Proof. intros Hl. unfold load_list. rewrite bind_run. unfold load. now rewrite Hl. Qed.

Lemma load_counts_run (h : heap) (l : loc) (counts : gmap string Z) :
  h !! l = Some (PyCounts counts) -> load_counts l h = Ok (counts, h).
Proof. intros Hl. unfold load_counts. rewrite bind_run. unfold load. now rewrite Hl. Qed.

Lemma load_report_run (h : heap) (l : loc) (r : report) :
  h !! l = Some (PyReport r) -> load_report l h = Ok (r, h).
Proof. intros Hl. unfold load_report. rewrite bind_run. unfold load. now rewrite Hl. Qed.

Lemma count_damage_run (g : heap) (rep : loc) (r : report)
    (counts : gmap string Z) (d : detection) :
  g !! rep = Some (PyReport r) ->
  g !! damage_summary r = Some (PyCounts counts) ->
  count_damage rep d g
  = Ok (tt, <[damage_summary r := PyCounts (bump counts (type d))]> g).
Proof.
  intros Hrep Hsum.
  assert (Hne : damage_summary r <> rep) by congruence.
  unfold count_damage, bump.
  rewrite bind_run, (load_report_run _ _ _ Hrep).
  rewrite bind_run, (load_counts_run _ _ _ Hsum).
  rewrite bind_run.
  destruct (bool_decide (type d ∈ dom counts)) eqn:E; cbn [negb].
  - apply bool_decide_eq_true in E. apply elem_of_dom in E as [v Hv].
    cbn [mret M_ret].
    rewrite bind_run, (load_report_run _ _ _ Hrep).
    rewrite bind_run, (load_counts_run _ _ _ Hsum).
    rewrite bind_run. unfold lift, getitem, store. rewrite Hv.
    reflexivity.
  - apply bool_decide_eq_false in E. apply not_elem_of_dom in E.
    unfold store at 1.
    rewrite bind_run, (load_report_run _ _ r).
    2: { rewrite lookup_insert_ne by exact Hne. exact Hrep. }
    rewrite bind_run, (load_counts_run _ _ (<[type d := 0%Z]> counts)).
    2: { apply lookup_insert_eq. }
    rewrite bind_run. unfold lift, getitem, store.
    rewrite lookup_insert_eq, E. cbn [default].
    rewrite !insert_insert_eq. reflexivity.
Qed.

Lemma counting_loop_run (rep : loc) (r : report) (ds : list detection) :
  forall (g : heap) (counts : gmap string Z),
    g !! rep = Some (PyReport r) ->
    g !! damage_summary r = Some (PyCounts counts) ->
    for_each ds (count_damage rep) g
    = Ok (tt, <[damage_summary r := PyCounts (foldl bump counts (type <$> ds))]> g).
Proof.
  induction ds as [|d ds IH]; intros g counts Hrep Hsum.
  - cbn. now rewrite insert_id.
  - assert (Hne : damage_summary r <> rep) by congruence.
    cbn [for_each]. rewrite bind_run, (count_damage_run _ _ _ _ _ Hrep Hsum).
    rewrite (IH _ (bump counts (type d))).
    + now rewrite insert_insert_eq.
    + now rewrite lookup_insert_ne.
    + apply lookup_insert_eq.
Qed.

Lemma fresh_not_allocated (h : heap) : h !! fresh (dom h) = None.
Proof. apply not_elem_of_dom, is_fresh. Qed.

(** The run of [generate_report] on a heap that holds the detection list:
    it cannot raise, and the final heap is the initial one extended with the
    summary dict and the report. *)
Lemma generate_report_run (h : heap) (damages : loc) (img : string)
    (ds : list detection) :
  h !! damages = Some (PyList ds) ->
  exists rep h' r,
    generate_report damages img h = Ok (rep, h')
    /\ h' !! rep = Some (PyReport r)
    /\ h' !! damage_summary r = Some (PyCounts (tally ds))
    /\ image r = img
    /\ total_damages r = Z.of_nat (length ds)
    /\ detailed_damages r = damages
    /\ assess_severity ds = Ok (severity_assessment r)
    /\ h !! rep = None /\ h !! damage_summary r = None
    /\ (forall l, l <> rep -> l <> damage_summary r -> h' !! l = h !! l).
Proof.
  intros Hds.
  destruct (assess_severity_total ds) as [label Hlabel].
  set (summary := fresh (dom h)).
  set (h1 := <[summary := PyCounts ∅]> h).
  set (rep := fresh (dom h1)).
  set (r := {| image := img; total_damages := Z.of_nat (length ds);
               damage_summary := summary; detailed_damages := damages;
               severity_assessment := label |}).
  set (h2 := <[rep := PyReport r]> h1).
  assert (Hs : h !! summary = None) by apply fresh_not_allocated.
  assert (Hr1 : h1 !! rep = None) by apply fresh_not_allocated.
  assert (Hsd : summary <> damages) by congruence.
  assert (Hrs : rep <> summary).
  { intros ->. subst h1. rewrite lookup_insert_eq in Hr1. discriminate. }
  assert (Hr : h !! rep = None).
  { subst h1. now rewrite lookup_insert_ne in Hr1. }
  assert (Hrd : rep <> damages) by congruence.
  assert (Hds1 : h1 !! damages = Some (PyList ds)).
  { subst h1. now rewrite lookup_insert_ne. }
  assert (Hds2 : h2 !! damages = Some (PyList ds)).
  { subst h2. now rewrite lookup_insert_ne. }
  exists rep, (<[summary := PyCounts (tally ds)]> h2), r.
  split.
  { unfold generate_report.
    rewrite bind_run, (load_list_run _ _ _ Hds).
    rewrite bind_run. unfold alloc at 1. fold summary. fold h1.
    rewrite bind_run, (load_list_run _ _ _ Hds1).
    rewrite bind_run, Hlabel. cbn [lift].
    rewrite bind_run. unfold alloc at 1. fold rep. fold r. fold h2.
    rewrite bind_run, (load_list_run _ _ _ Hds2).
    rewrite bind_run, (counting_loop_run rep r ds h2 ∅).
    - reflexivity.
    - subst h2. apply lookup_insert_eq.
    - change (damage_summary r) with summary.
      subst h2 h1. rewrite lookup_insert_ne by congruence.
      apply lookup_insert_eq. }
  change (damage_summary r) with summary.
  split. { subst h2. rewrite lookup_insert_ne by congruence. apply lookup_insert_eq. }
  split. { apply lookup_insert_eq. }
  do 4 (split; [reflexivity || exact Hlabel|]).
  split; [exact Hr|]. split; [exact Hs|].
  intros l Hlr Hls.
  subst h2 h1. now rewrite !lookup_insert_ne by congruence.
Qed.

(** The report as a reader sees it: the record, the summary dict it points
    to and the list it points to, which is the caller's own list. *)
Lemma generate_report_view (h : heap) (damages : loc) (img : string)
    (ds : list detection) :
  h !! damages = Some (PyList ds) ->
  exists rep h' r,
    generate_report damages img h = Ok (rep, h')
    /\ h' !! rep = Some (PyReport r)
    /\ read_report h' rep = Some (r, tally ds, ds)
    /\ total_damages r = Z.of_nat (length ds)
    /\ detailed_damages r = damages
    /\ assess_severity ds = Ok (severity_assessment r)
    /\ (forall l o, h !! l = Some o -> h' !! l = Some o).
Proof.
  intros Hds.
  destruct (generate_report_run h damages img ds Hds)
    as (rep & h' & r & Hrun & Hrep & Hsum & _ & Htot & Hdet & Hsev
        & Hfr & Hfs & Hframe).
  assert (Hold : forall l o, h !! l = Some o -> h' !! l = Some o).
  { intros l o Hl. rewrite Hframe; [exact Hl | congruence | congruence]. }
  exists rep, h', r.
  split; [exact Hrun|]. split; [exact Hrep|].
  split.
  { unfold read_report. rewrite Hrep, Hsum, Hdet.
    now rewrite (Hold _ _ Hds). }
  auto.
Qed.


Lemma occurrences_cons (t : string) (d : detection) (ds : list detection) :
  occurrences t (d :: ds)
  = (if bool_decide (type d = t) then 1 else 0) + occurrences t ds.
Proof.
  unfold occurrences. simpl.
  now destruct (bool_decide (type d = t)).
Qed.

Lemma bump_lookup (counts : gmap string Z) (x t : string) :
  bump counts x !! t
  = if bool_decide (x = t) then Some (default 0%Z (counts !! t) + 1)%Z
    else counts !! t.
Proof.
  unfold bump. case_bool_decide as Hxt.
  - subst. apply lookup_insert_eq.
  - now apply lookup_insert_ne.
Qed.

Lemma counting_lookup (ds : list detection) :
  forall (counts : gmap string Z) (t : string),
    foldl bump counts (type <$> ds) !! t
    = match counts !! t, occurrences t ds with
      | None, 0 => None
      | o, n => Some (default 0%Z o + Z.of_nat n)%Z
      end.
Proof.
  induction ds as [|d ds IH]; intros counts t.
  - cbn. destruct (counts !! t); cbn; [f_equal; lia | reflexivity].
  - cbn [fmap list_fmap foldl]. rewrite IH, bump_lookup, occurrences_cons.
    case_bool_decide as Hdt.
    + destruct (counts !! t), (occurrences t ds); cbn; f_equal; lia.
    + destruct (counts !! t), (occurrences t ds); cbn; reflexivity.
Qed.

Lemma tally_lookup (ds : list detection) (t : string) :
  tally ds !! t
  = match occurrences t ds with
    | 0 => None
    | S _ as n => Some (Z.of_nat n)
    end.
Proof.
  unfold tally. rewrite counting_lookup, lookup_empty.
  destruct (occurrences t ds); cbn [default]; [reflexivity|].
  f_equal.
Qed.

Lemma sum_counts_bump (counts : gmap string Z) (t : string) :
  sum_counts (bump counts t) = (sum_counts counts + 1)%Z.
Proof.
  assert (Hcomm : forall m : gmap string Z,
             forall (j1 j2 : string) (z1 z2 y : Z),
               j1 <> j2 -> m !! j1 = Some z1 -> m !! j2 = Some z2 ->
               (z1 + (z2 + y) = z2 + (z1 + y))%Z) by (intros; lia).
  unfold sum_counts, bump.
  destruct (counts !! t) as [v|] eqn:E; cbn [default from_option]; unfold id.
  - rewrite <- insert_delete_eq.
    rewrite map_fold_insert_L; [|apply Hcomm|apply lookup_delete_eq].
    rewrite (map_fold_delete_L _ _ t v counts); [cbv beta; lia|apply Hcomm|exact E].
  - rewrite map_fold_insert_L; [cbv beta; lia|apply Hcomm|exact E].
Qed.

Lemma sum_counts_counting (ts : list string) :
  forall counts : gmap string Z,
    sum_counts (foldl bump counts ts)
    = (sum_counts counts + Z.of_nat (length ts))%Z.
Proof.
  induction ts as [|t ts IH]; intros counts; cbn [foldl length].
  - lia.
  - rewrite IH, sum_counts_bump. lia.
Qed.

Lemma sum_counts_tally (ds : list detection) :
  sum_counts (tally ds) = Z.of_nat (length ds).
Proof.
  unfold tally. rewrite sum_counts_counting, length_fmap.
  unfold sum_counts. now rewrite map_fold_empty.
Qed.

(** C5: the summary dict of the report maps every type to the number of
    detections carrying it, and has no entry for a type that does not occur;
    for types dent, dent, scratch it is {dent: 2, scratch: 1}, with no key
    "rust". *)
Theorem damage_summary_counts (h : heap) (damages : loc) (img : string)
    (ds : list detection) :
  h !! damages = Some (PyList ds) ->
  exists rep h' r counts items,
    generate_report damages img h = Ok (rep, h')
    /\ read_report h' rep = Some (r, counts, items)
    /\ (forall t, counts !! t = match occurrences t ds with
                                | 0 => None
                                | S _ as n => Some (Z.of_nat n)
                                end)
    /\ (type <$> ds = ["dent"; "dent"; "scratch"] ->
        counts = {[ "dent" := 2%Z; "scratch" := 1%Z ]}
        /\ counts !! "rust" = None).
Proof.
  intros Hds.
  destruct (generate_report_view h damages img ds Hds)
    as (rep & h' & r & Hrun & _ & Hview & _).
  exists rep, h', r, (tally ds), ds.
  split; [exact Hrun|]. split; [exact Hview|].
  split; [apply tally_lookup|].
  intros Hty. unfold tally. rewrite Hty.
  split; reflexivity.
Qed.

Lemma damage_summary_counts_witness :
  exists rep h' r counts items,
    generate_report 1%positive "car.jpg"
      (heap_with 1 [sample "dent" 0.9; sample "dent" 0.7; sample "scratch" 0.6])
    = Ok (rep, h')
    /\ read_report h' rep = Some (r, counts, items)
    /\ counts = {[ "dent" := 2%Z; "scratch" := 1%Z ]}
    /\ counts !! "rust" = None.
Proof.
  destruct (damage_summary_counts
              (heap_with 1 [sample "dent" 0.9; sample "dent" 0.7; sample "scratch" 0.6])
              1%positive "car.jpg"
              [sample "dent" 0.9; sample "dent" 0.7; sample "scratch" 0.6])
    as (rep & h' & r & counts & items & Hrun & Hview & _ & Hex);
    [reflexivity|].
  exists rep, h', r, counts, items.
  split; [exact Hrun|]. split; [exact Hview|].
  apply Hex. reflexivity.
Defined.

(** C6: [assess_severity] and [generate_report] never raise, whatever the
    types in the list; the empty list gives total_damages = 0, an empty
    summary and the NoDamage label. *)
Theorem report_never_raises (h : heap) (damages : loc) (img : string)
    (ds : list detection) :
  h !! damages = Some (PyList ds) ->
  (exists label, assess_severity ds = Ok label)
  /\ (exists rep h' r counts items,
        generate_report damages img h = Ok (rep, h')
        /\ read_report h' rep = Some (r, counts, items)
        /\ assess_severity ds = Ok (severity_assessment r)
        /\ (ds = [] ->
            total_damages r = 0%Z
            /\ counts = ∅
            /\ severity_assessment r = "No damage detected"
            /\ severity_of_label (severity_assessment r) = Some NoDamage)).
Proof.
  intros Hds. split; [apply assess_severity_total|].
  destruct (generate_report_view h damages img ds Hds)
    as (rep & h' & r & Hrun & _ & Hview & Htot & _ & Hsev & _).
  exists rep, h', r, (tally ds), ds.
  split; [exact Hrun|]. split; [exact Hview|]. split; [exact Hsev|].
  intros ->. cbn in Hsev. injection Hsev as Hsev.
  rewrite <- Hsev. repeat split. exact Htot.
Qed.

Lemma report_never_raises_witness :
  (exists rep h' r counts items,
      generate_report 1%positive "car.jpg" (heap_with 1 []) = Ok (rep, h')
      /\ read_report h' rep = Some (r, counts, items)
      /\ total_damages r = 0%Z
      /\ counts = ∅
      /\ severity_of_label (severity_assessment r) = Some NoDamage)
  /\ (exists rep h',
        generate_report 1%positive "car.jpg"
          (heap_with 1 [sample "unknown_12" 0.8; sample "" 0]) = Ok (rep, h')).
Proof.
  split.
  - destruct (report_never_raises (heap_with 1 []) 1%positive "car.jpg" [])
      as (_ & rep & h' & r & counts & items & Hrun & Hview & _ & Hempty);
      [reflexivity|].
    destruct (Hempty eq_refl) as (Htot & Hcounts & _ & Hsev).
    exists rep, h', r, counts, items. auto.
  - destruct (report_never_raises
                (heap_with 1 [sample "unknown_12" 0.8; sample "" 0])
                1%positive "car.jpg"
                [sample "unknown_12" 0.8; sample "" 0])
      as (_ & rep & h' & _ & _ & _ & Hrun & _);
      [reflexivity|].
    exists rep, h'. exact Hrun.
Defined.



(** C10: in every report the counts of the summary add up to
    total_damages, which is the length of detailed_damages and of the input
    list. *)
Theorem report_totals_agree (h : heap) (damages : loc) (img : string)
    (ds : list detection) :
  h !! damages = Some (PyList ds) ->
  exists rep h' r counts items,
    generate_report damages img h = Ok (rep, h')
    /\ read_report h' rep = Some (r, counts, items)
    /\ sum_counts counts = total_damages r
    /\ total_damages r = Z.of_nat (length items)
    /\ length items = length ds.
Proof.
  intros Hds.
  destruct (generate_report_view h damages img ds Hds)
    as (rep & h' & r & Hrun & _ & Hview & Htot & _).
  exists rep, h', r, (tally ds), ds.
  split; [exact Hrun|]. split; [exact Hview|].
  rewrite Htot, sum_counts_tally. auto.
Qed.

Lemma report_totals_agree_witness :
  exists rep h' r counts items,
    generate_report 1%positive "car.jpg"
      (heap_with 1 [sample "rust" 0.9; sample "dent" 0.7; sample "rust" 0.6])
    = Ok (rep, h')
    /\ read_report h' rep = Some (r, counts, items)
    /\ sum_counts counts = total_damages r
    /\ total_damages r = Z.of_nat (length items)
    /\ length items = 3.
Proof.
  apply (report_totals_agree
           (heap_with 1 [sample "rust" 0.9; sample "dent" 0.7; sample "rust" 0.6])
           1%positive "car.jpg"
           [sample "rust" 0.9; sample "dent" 0.7; sample "rust" 0.6]).
  reflexivity.
Defined.

End ReportBuilder.

(** * Further properties of assess_severity *)

Section SeverityLabels.
Import DamageDetector Views.

Lemma severity_counts (ds : list detection) :
  severity ds = Some (severity_of_counts (severe_count ds) (length ds)).
Proof.
  unfold severity. destruct ds as [|d ds]; [reflexivity|].
  rewrite assess_severity_nonempty.
  unfold label_of_counts, severity_of_counts. cbn [length].
  destruct (3 <=? severe_count (d :: ds))%nat, (5 <=? S (length ds))%nat,
           (1 <=? severe_count (d :: ds))%nat, (3 <=? S (length ds))%nat;
    reflexivity.
Qed.

Lemma severe_count_app (ds1 ds2 : list detection) :
  severe_count (ds1 ++ ds2) = severe_count ds1 + severe_count ds2.
Proof.
  unfold severe_count. now rewrite List.filter_app, length_app.
Qed.

Lemma severe_count_le_length (ds : list detection) :
  severe_count ds <= length ds.
Proof. unfold severe_count. apply List.filter_length_le. Qed.

Lemma severity_of_counts_monotone (sev sev' total total' : nat) :
  sev <= sev' -> total <= total' ->
  rank (severity_of_counts sev total) <= rank (severity_of_counts sev' total').
Proof.
  intros Hs Ht. unfold severity_of_counts.
  destruct total as [|n]; [simpl; lia|].
  destruct total' as [|n']; [lia|].
  destruct (Nat.leb_spec 3 sev), (Nat.leb_spec 5 (S n)),
           (Nat.leb_spec 1 sev), (Nat.leb_spec 3 (S n)),
           (Nat.leb_spec 3 sev'), (Nat.leb_spec 5 (S n')),
           (Nat.leb_spec 1 sev'), (Nat.leb_spec 3 (S n'));
    simpl; lia.
Qed.

(** X1: the label is "No damage detected" exactly for the empty list; for a
    non-empty list it is "Minor", "Moderate" or "Severe"; the label
    "No damage" of the last branch is never returned. *)
Theorem assess_severity_labels (ds : list detection) :
  exists label,
    assess_severity ds = Ok label
    /\ (label = "No damage detected" <-> ds = [])
    /\ label <> "No damage"
    /\ (ds <> [] -> label = "Minor" \/ label = "Moderate" \/ label = "Severe").
Proof.
  destruct ds as [|d ds].
  - exists "No damage detected". repeat split; try discriminate; tauto.
  - rewrite assess_severity_nonempty. eexists. split; [reflexivity|].
    unfold label_of_counts.
    destruct (_ || _); [|destruct (_ || _)];
      (split; [split; discriminate|]); (split; [discriminate|]); auto.
Qed.

Lemma assess_severity_labels_witness :
  exists label,
    assess_severity [sample "rust" 0.4; sample "glass_damage" 0.8] = Ok label
    /\ (label = "Minor" \/ label = "Moderate" \/ label = "Severe").
Proof.
  destruct (assess_severity_labels [sample "rust" 0.4; sample "glass_damage" 0.8])
    as (label & Hrun & _ & _ & Hne).
  exists label. split; [exact Hrun|]. apply Hne. discriminate.
Defined.

(** X2: detections added to a list, whatever their types, never lower the
    severity. *)
Theorem severity_grows_with_detections (ds extra : list detection) :
  exists s1 s2,
    severity ds = Some s1 /\ severity (ds ++ extra) = Some s2
    /\ rank s1 <= rank s2.
Proof.
  eexists _, _. rewrite !severity_counts.
  split; [reflexivity|]. split; [reflexivity|].
  apply severity_of_counts_monotone.
  - rewrite severe_count_app. lia.
  - rewrite length_app. lia.
Qed.

(** X3: the label does not depend on the order of the detections. *)
Theorem assess_severity_permutation (ds1 ds2 : list detection) :
  ds1 ≡ₚ ds2 -> assess_severity ds1 = assess_severity ds2.
Proof.
  intros Hperm. apply assess_severity_counts.
  - now rewrite Hperm.
  - rewrite <- !severe_filter_length. now rewrite Hperm.
Qed.

Lemma assess_severity_permutation_witness :
  assess_severity [sample "crack" 0.9; sample "dent" 0.7; sample "rust" 0.6]
  = assess_severity [sample "rust" 0.6; sample "crack" 0.9; sample "dent" 0.7].
Proof.
  apply (assess_severity_permutation
           [sample "crack" 0.9; sample "dent" 0.7; sample "rust" 0.6]
           [sample "rust" 0.6; sample "crack" 0.9; sample "dent" 0.7]).
  symmetry.
  apply (Permutation_cons_append [sample "crack" 0.9; sample "dent" 0.7]
                                 (sample "rust" 0.6)).
Defined.

End SeverityLabels.

(** * Further properties of generate_report *)

Section ReportObjects.
Import DamageDetector.

Lemma occurrences_pos (t : string) (ds : list detection) :
  0 < occurrences t ds <-> t ∈ type <$> ds.
Proof.
  induction ds as [|d ds IH].
  - cbn. rewrite elem_of_nil. lia.
  - rewrite occurrences_cons, fmap_cons, elem_of_cons.
    case_bool_decide as Hdt.
    + split; [intros _; left; congruence | intros _; lia].
    + rewrite <- IH. split; [intros ?; right; lia | intros [?|?]; [congruence | lia]].
Qed.

Lemma dom_tally (ds : list detection) :
  dom (tally ds) = list_to_set (type <$> ds).
Proof.
  apply set_eq. intros t.
  rewrite elem_of_dom, tally_lookup, elem_of_list_to_set, <- occurrences_pos.
  destruct (occurrences t ds).
  - split; [intros [? ?]; discriminate | lia].
  - split; [lia | eauto].
Qed.

Lemma size_list_to_set_le (l : list string) :
  size (list_to_set l : gset string) <= length l.
Proof.
  induction l as [|x l IH]; [reflexivity|].
  rewrite list_to_set_cons, size_union_alt, size_singleton. cbn [length].
  assert (Hsub : size (list_to_set l ∖ {[x]} : gset string)
                 <= size (list_to_set l : gset string)).
  { apply subseteq_size. intros y Hy. apply elem_of_difference in Hy. tauto. }
  lia.
Qed.

Lemma tally_positive (ds : list detection) (t : string) (n : Z) :
  tally ds !! t = Some n -> (1 <= n)%Z.
Proof.
  rewrite tally_lookup. destruct (occurrences t ds); [discriminate|].
  intros [= <-]. lia.
Qed.

(** X4: the keys of the summary dict are exactly the types that occur in
    the input, every stored count is at least 1, and there are at most as
    many keys as detections. *)
Theorem damage_summary_keys (h : heap) (damages : loc) (img : string)
    (ds : list detection) :
  h !! damages = Some (PyList ds) ->
  exists rep h' r counts items,
    generate_report damages img h = Ok (rep, h')
    /\ read_report h' rep = Some (r, counts, items)
    /\ dom counts = list_to_set (type <$> ds)
    /\ (forall t n, counts !! t = Some n -> (1 <= n)%Z)
    /\ size counts <= length ds.
Proof.
  intros Hds.
  destruct (generate_report_view h damages img ds Hds)
    as (rep & h' & r & Hrun & _ & Hview & _).
  exists rep, h', r, (tally ds), ds.
  split; [exact Hrun|]. split; [exact Hview|].
  split; [apply dom_tally|]. split; [apply tally_positive|].
  rewrite <- size_dom, dom_tally, <- (length_fmap type ds).
  apply size_list_to_set_le.
Qed.

Lemma damage_summary_keys_witness :
  exists rep h' r counts items,
    generate_report 1%positive "car.jpg"
      (heap_with 1 [sample "rust" 0.9; sample "dent" 0.7; sample "rust" 0.6])
    = Ok (rep, h')
    /\ read_report h' rep = Some (r, counts, items)
    /\ dom counts = {[ "rust"; "dent" ]}
    /\ size counts <= 3.
Proof.
  destruct (damage_summary_keys
              (heap_with 1 [sample "rust" 0.9; sample "dent" 0.7; sample "rust" 0.6])
              1%positive "car.jpg"
              [sample "rust" 0.9; sample "dent" 0.7; sample "rust" 0.6])
    as (rep & h' & r & counts & items & Hrun & Hview & Hdom & _ & Hsize);
    [reflexivity|].
  exists rep, h', r, counts, items.
  split; [exact Hrun|]. split; [exact Hview|]. split; [|exact Hsize].
  rewrite Hdom. cbn. set_solver.
Defined.

(** X5: a call allocates exactly two objects, the report and its summary
    dict, at locations that were free; the heap has no other new
    location. *)
Theorem generate_report_allocates_two (h : heap) (damages : loc)
    (img : string) (ds : list detection) :
  h !! damages = Some (PyList ds) ->
  exists rep h' r,
    generate_report damages img h = Ok (rep, h')
    /\ h' !! rep = Some (PyReport r)
    /\ (rep ∉ dom h) /\ (damage_summary r ∉ dom h)
    /\ rep <> damage_summary r
    /\ dom h' = dom h ∪ {[ rep; damage_summary r ]}.
Proof.
  intros Hds.
  destruct (generate_report_run h damages img ds Hds)
    as (rep & h' & r & Hrun & Hrep & Hsum & _ & _ & _ & _ & Hfr & Hfs & Hframe).
  exists rep, h', r.
  split; [exact Hrun|]. split; [exact Hrep|].
  split; [now apply not_elem_of_dom|]. split; [now apply not_elem_of_dom|].
  split; [congruence|].
  apply set_eq. intros l.
  rewrite elem_of_union, !elem_of_dom, elem_of_union, !elem_of_singleton.
  destruct (decide (l = rep)) as [-> | Hlr].
  { rewrite Hrep. split; eauto. }
  destruct (decide (l = damage_summary r)) as [-> | Hls].
  { rewrite Hsum. split; eauto. }
  rewrite (Hframe l Hlr Hls). tauto.
Qed.

Lemma generate_report_allocates_two_witness :
  exists rep h' r,
    generate_report 1%positive "car.jpg" (heap_with 1 [sample "dent" 0.7])
    = Ok (rep, h')
    /\ h' !! rep = Some (PyReport r)
    /\ rep <> damage_summary r
    /\ dom h' = {[ 1%positive ]} ∪ {[ rep; damage_summary r ]}.
Proof.
  destruct (generate_report_allocates_two
              (heap_with 1 [sample "dent" 0.7]) 1%positive "car.jpg"
              [sample "dent" 0.7])
    as (rep & h' & r & Hrun & Hrep & Hr & Hs & Hne & Hdom); [reflexivity|].
  exists rep, h', r.
  split; [exact Hrun|]. split; [exact Hrep|]. split; [exact Hne|].
  rewrite Hdom. unfold heap_with. now rewrite dom_singleton_L.
Defined.

Lemma read_report_preserved (h h' : heap) (rep : loc)
    (v : report * gmap string Z * list detection) :
  (forall l o, h !! l = Some o -> h' !! l = Some o) ->
  read_report h rep = Some v -> read_report h' rep = Some v.
Proof.
  intros Hkeep. unfold read_report.
  destruct (h !! rep) as [[| |r|]|] eqn:Erep; try discriminate.
  rewrite (Hkeep _ _ Erep).
  destruct (h !! damage_summary r) as [[]|] eqn:E1; try discriminate.
  destruct (h !! detailed_damages r) as [[]|] eqn:E2; try discriminate.
  now rewrite (Hkeep _ _ E1), (Hkeep _ _ E2).
Qed.

(** X6: two reports built from the same list refer to that one list; each
    has a summary dict of its own, and the second call leaves the first
    report as it was. *)
Theorem reports_share_the_list (h : heap) (damages : loc)
    (img1 img2 : string) (ds : list detection) :
  h !! damages = Some (PyList ds) ->
  exists rep1 h1 rep2 h2 r1 r2,
    generate_report damages img1 h = Ok (rep1, h1)
    /\ generate_report damages img2 h1 = Ok (rep2, h2)
    /\ read_report h2 rep1 = Some (r1, tally ds, ds)
    /\ read_report h2 rep2 = Some (r2, tally ds, ds)
    /\ detailed_damages r1 = damages /\ detailed_damages r2 = damages
    /\ rep1 <> rep2
    /\ damage_summary r1 <> damage_summary r2.
Proof.
  intros Hds.
  destruct (generate_report_run h damages img1 ds Hds)
    as (rep1 & h1 & r1 & Hrun1 & Hrep1 & Hsum1 & _ & _ & Hdet1 & _
        & Hfr1 & Hfs1 & Hframe1).
  assert (Hds1 : h1 !! damages = Some (PyList ds)).
  { rewrite Hframe1; [exact Hds | congruence | congruence]. }
  assert (Hview1 : read_report h1 rep1 = Some (r1, tally ds, ds)).
  { unfold read_report. now rewrite Hrep1, Hsum1, Hdet1, Hds1. }
  destruct (generate_report_run h1 damages img2 ds Hds1)
    as (rep2 & h2 & r2 & Hrun2 & Hrep2 & Hsum2 & _ & _ & Hdet2 & _
        & Hfr2 & Hfs2 & Hframe2).
  assert (Hkeep : forall l o, h1 !! l = Some o -> h2 !! l = Some o).
  { intros l o Hl. rewrite Hframe2; [exact Hl | congruence | congruence]. }
  exists rep1, h1, rep2, h2, r1, r2.
  split; [exact Hrun1|]. split; [exact Hrun2|].
  split; [exact (read_report_preserved _ _ _ _ Hkeep Hview1)|].
  split.
  { unfold read_report. now rewrite Hrep2, Hsum2, Hdet2, (Hkeep _ _ Hds1). }
  repeat split; congruence.
Qed.

Lemma reports_share_the_list_witness :
  exists rep1 h1 rep2 h2 r1 r2,
    generate_report 1%positive "a.jpg" (heap_with 1 [sample "dent" 0.7])
    = Ok (rep1, h1)
    /\ generate_report 1%positive "b.jpg" h1 = Ok (rep2, h2)
    /\ detailed_damages r1 = detailed_damages r2
    /\ damage_summary r1 <> damage_summary r2.
Proof.
  destruct (reports_share_the_list
              (heap_with 1 [sample "dent" 0.7]) 1%positive "a.jpg" "b.jpg"
              [sample "dent" 0.7])
    as (rep1 & h1 & rep2 & h2 & r1 & r2 & H1 & H2 & _ & _ & D1 & D2 & _ & Hne);
    [reflexivity|].
  exists rep1, h1, rep2, h2, r1, r2.
  split; [exact H1|]. split; [exact H2|]. split; [congruence | exact Hne].
Defined.

(** X7: the report is not isolated from its input: when the caller's list
    object is changed afterwards, the report shows the new contents as its
    detailed_damages, while total_damages and the summary keep describing
    the old list. *)
Theorem report_follows_later_changes (h : heap) (damages : loc)
    (img : string) (ds ds' : list detection) :
  h !! damages = Some (PyList ds) ->
  exists rep h' r h'',
    generate_report damages img h = Ok (rep, h')
    /\ store damages (PyList ds') h' = Ok (tt, h'')
    /\ read_report h'' rep = Some (r, tally ds, ds')
    /\ total_damages r = Z.of_nat (length ds).
Proof.
  intros Hds.
  destruct (generate_report_run h damages img ds Hds)
    as (rep & h' & r & Hrun & Hrep & Hsum & _ & Htot & Hdet & _ & Hfr & Hfs & _).
  exists rep, h', r, (<[damages := PyList ds']> h').
  split; [exact Hrun|]. split; [reflexivity|]. split; [|exact Htot].
  unfold read_report.
  rewrite lookup_insert_ne by congruence. rewrite Hrep.
  rewrite lookup_insert_ne by congruence. rewrite Hsum, Hdet.
  now rewrite lookup_insert_eq.
Qed.

Lemma report_follows_later_changes_witness :
  exists rep h' r h'',
    generate_report 1%positive "car.jpg" (heap_with 1 [sample "dent" 0.7])
    = Ok (rep, h')
    /\ store 1%positive (PyList []) h' = Ok (tt, h'')
    /\ read_report h'' rep = Some (r, tally [sample "dent" 0.7], [])
    /\ total_damages r = 1%Z.
Proof.
  apply (report_follows_later_changes
           (heap_with 1 [sample "dent" 0.7]) 1%positive "car.jpg"
           [sample "dent" 0.7] []).
  reflexivity.
Defined.

End ReportObjects.

(** * Further properties of convert_bbox_to_yolo *)

Section BBoxShape.
Import VehiDEToYOLO Views.
Local Open Scope Q_scope.

(** X8: a bbox that does not have exactly four entries raises
    [ValueError] at the tuple assignment, before any division, so also when
    a dimension is zero. *)
Theorem convert_bbox_to_yolo_wrong_length (bbox : list Q) (W H : Q) :
  length bbox <> 4%nat ->
  convert_bbox_to_yolo bbox W H = Raise ValueError.
Proof.
  intros Hlen.
  destruct bbox as [|a [|b [|c [|d [|e rest]]]]]; try reflexivity.
  now contradiction Hlen.
Qed.

Lemma convert_bbox_to_yolo_wrong_length_witness :
  convert_bbox_to_yolo [10; 20; 30] 0 0 = Raise ValueError
  /\ convert_bbox_to_yolo [10; 20; 30; 40; 50] 100 200 = Raise ValueError.
Proof.
  split.
  - apply (convert_bbox_to_yolo_wrong_length [10; 20; 30] 0 0). discriminate.
  - apply (convert_bbox_to_yolo_wrong_length [10; 20; 30; 40; 50] 100 200).
    discriminate.
Defined.

(** X9: the result does not depend on the unit of length: scaling the box
    and both image dimensions by the same non-zero factor gives the same
    four numbers, or the same exception. *)
Theorem convert_bbox_to_yolo_scale (k x1 y1 x2 y2 W H : Q) :
  ~ k == 0 ->
  same_outcome
    (convert_bbox_to_yolo [k * x1; k * y1; k * x2; k * y2] (k * W) (k * H))
    (convert_bbox_to_yolo [x1; y1; x2; y2] W H).
Proof.
  intros Hk.
  destruct (Qeq_dec W 0) as [HW | HW].
  { rewrite !convert_bbox_to_yolo_zero; [reflexivity | now left |].
    left. rewrite HW. ring. }
  destruct (Qeq_dec H 0) as [HH | HH].
  { rewrite !convert_bbox_to_yolo_zero; [reflexivity | now right |].
    right. rewrite HH. ring. }
  assert (HkW : ~ k * W == 0).
  { intros E. apply Qmult_integral in E. tauto. }
  assert (HkH : ~ k * H == 0).
  { intros E. apply Qmult_integral in E. tauto. }
  rewrite (convert_bbox_to_yolo_nonzero _ _ _ _ _ _ HkW HkH).
  rewrite (convert_bbox_to_yolo_nonzero _ _ _ _ _ _ HW HH).
  cbn [same_outcome].
  repeat constructor; field; auto.
Qed.

Lemma convert_bbox_to_yolo_scale_witness :
  same_outcome
    (convert_bbox_to_yolo [3 * 10; 3 * 20; 3 * 30; 3 * 40] (3 * 100) (3 * 200))
    (convert_bbox_to_yolo [10; 20; 30; 40] 100 200).
Proof.
  apply (convert_bbox_to_yolo_scale 3 10 20 30 40 100 200).
  unfold Qeq. simpl. lia.
Defined.



End BBoxShape.

(** * Properties of the detector (inference.py) *)

Section Detector.
Import DamageDetector Inference Views.

Lemma append_loop {A B : Type} (f : A -> B) (bs : list A) (acc : list B) :
  foldl (fun damages box => (damages ++ [f box])%list) acc bs
  = (acc ++ (f <$> bs))%list.
Proof.
  revert acc. induction bs as [|b bs IH]; intros acc; cbn [foldl fmap list_fmap].
  - now rewrite app_nil_r.
  - rewrite IH, <- app_assoc. reflexivity.
Qed.

Lemma collect_loop (results : list yolo_result) (acc : list detection) :
  foldl (fun damages result =>
           match boxes result with
           | Some bs => foldl (fun damages box => (damages ++ [damage_info box])%list)
                              damages bs
           | None => damages
           end)
        acc results
  = (acc ++ (damage_info <$> all_boxes results))%list.
Proof.
  revert acc. unfold all_boxes.
  induction results as [|r results IH]; intros acc; cbn [foldl fmap list_fmap concat].
  - now rewrite app_nil_r.
  - rewrite IH, fmap_app, app_assoc. f_equal.
    destruct (boxes r) as [bs|]; cbn [default from_option].
    + apply append_loop.
    + now rewrite app_nil_r.
Qed.

Lemma collect_damages_boxes (results : list yolo_result) :
  collect_damages results = damage_info <$> all_boxes results.
Proof. unfold collect_damages. now rewrite collect_loop. Qed.

Lemma damage_info_type (box : yolo_box) :
  type (damage_info box) = damage_type_of (py_int (cls box)).
Proof. unfold damage_info. now destruct (xyxy box) as [[[? ?] ?] ?]. Qed.

Lemma damage_classes_known (class_id : Z) (name : string) :
  damage_classes !! class_id = Some name ->
  (class_id, name) ∈
    [ (0, "scratch"); (1, "dent"); (2, "crack"); (3, "glass_damage");
      (4, "paint_damage"); (5, "bumper_damage"); (6, "headlight_damage");
      (7, "tire_damage"); (8, "rust"); (9, "broken_part") ]%Z.
Proof. apply elem_of_list_to_map_2. Qed.

Lemma damage_classes_range (class_id : Z) :
  is_Some (damage_classes !! class_id) <-> (0 <= class_id <= 9)%Z.
Proof.
  split.
  - intros [name Hname]. apply damage_classes_known in Hname.
    repeat (apply elem_of_cons in Hname as [[= -> ->] | Hname]; [lia|]).
    now apply elem_of_nil in Hname.
  - intros Hrange.
    assert (Hcases : (class_id = 0 \/ class_id = 1 \/ class_id = 2 \/ class_id = 3
                      \/ class_id = 4 \/ class_id = 5 \/ class_id = 6
                      \/ class_id = 7 \/ class_id = 8 \/ class_id = 9)%Z) by lia.
    repeat (destruct Hcases as [-> | Hcases]; [eexists; reflexivity|]).
    subst. eexists; reflexivity.
Qed.

Lemma annotation_classes_known (name : string) (class_id : Z) :
  Annotations.damage_classes !! name = Some class_id ->
  (name, class_id) ∈ Annotations.damage_class_items.
Proof. apply elem_of_list_to_map_2. Qed.

(** X11: the class table of the converter and the class table of the
    detector are inverse to each other, and the position of a name in the
    [names] list of data.yaml is its class id; there are ten classes. *)
Theorem class_tables_agree :
  (forall name class_id,
      Annotations.damage_classes !! name = Some class_id
      <-> damage_classes !! class_id = Some name)
  /\ (forall i name,
        Annotations.names !! i = Some name
        <-> Annotations.damage_classes !! name = Some (Z.of_nat i))
  /\ Annotations.nc = 10
  /\ size damage_classes = Annotations.nc.
Proof.
  split; [|split; [|split; reflexivity]].
  - intros name class_id. split; intros Hin.
    + apply annotation_classes_known in Hin.
      unfold Annotations.damage_class_items in Hin.
      repeat (apply elem_of_cons in Hin as [[= -> ->] | Hin]; [reflexivity|]).
      now apply elem_of_nil in Hin.
    + apply damage_classes_known in Hin.
      repeat (apply elem_of_cons in Hin as [[= -> ->] | Hin]; [reflexivity|]).
      now apply elem_of_nil in Hin.
  - intros i name. split; intros Hin.
    + do 10 (destruct i as [|i]; [injection Hin as <-; reflexivity|]).
      discriminate Hin.
    + apply annotation_classes_known in Hin.
      unfold Annotations.damage_class_items in Hin.
      repeat (apply elem_of_cons in Hin as [[= -> Hi] | Hin];
              [match type of Hi with
               | Z.of_nat _ = ?k =>
                   assert (Hk : i = Z.to_nat k) by lia; rewrite Hk; reflexivity
               end|]).
      now apply elem_of_nil in Hin.
Qed.

(** X12: [detect_damage] gives [None] exactly when no model is loaded and
    the model file is missing, or the image is missing; otherwise it gives
    one detection per box, in the order of the results and of their boxes,
    results without boxes contributing nothing.  A model that is already
    loaded is kept, and a missing one is loaded from [model_path]. *)
Theorem detect_damage_outcome {Model : Type} (U : ultralytics Model)
    (self : detector Model) (image_path : string) (threshold : Q) :
  exists out self',
    detect_damage U self image_path threshold = (out, self')
    /\ (out = None
        <-> (model self = None /\ path_exists U (model_path self) = false)
            \/ path_exists U image_path = false)
    /\ (forall ds, out = Some ds ->
        exists m,
          model self' = Some m
          /\ (model self = Some m
              \/ (model self = None /\ m = YOLO U (model_path self)))
          /\ ds = damage_info <$> all_boxes (predict U m image_path threshold))
    /\ (is_Some (model self) -> self' = self)
    /\ model_path self' = model_path self.
Proof.
  unfold detect_damage, load_model.
  destruct self as [mp [m|]]; cbn [model model_path].
  - cbn [negb]. destruct (path_exists U image_path) eqn:Eimg; cbn [negb].
    + eexists _, _. split; [reflexivity|].
      split; [split; [discriminate | intros [[? _]|?]; discriminate]|].
      split.
      { intros ds [= <-]. exists m. rewrite collect_damages_boxes. auto. }
      auto.
    + eexists _, _. split; [reflexivity|].
      split; [split; auto|].
      split; [discriminate|]. auto.
  - destruct (path_exists U mp) eqn:Emp; cbn [negb model model_path].
    + destruct (path_exists U image_path) eqn:Eimg; cbn [negb].
      * eexists _, _. split; [reflexivity|].
        split; [split; [discriminate | intros [[_ ?]|?]; discriminate]|].
        split.
        { intros ds [= <-]. eexists. rewrite collect_damages_boxes. auto. }
        split; [intros [? ?]; discriminate | reflexivity].
      * eexists _, _. split; [reflexivity|].
        split; [split; auto|].
        split; [discriminate|].
        split; [intros [? ?]; discriminate | reflexivity].
    + eexists _, _. split; [reflexivity|].
      split; [split; auto|].
      split; [discriminate|].
      split; [intros [? ?]; discriminate | reflexivity].
Qed.

Lemma detect_damage_outcome_witness :
  exists ds self',
    detect_damage sample_library {| model_path := "best.pt"; model := None |}
      "car.jpg" 0.5%Q = (Some ds, self')
    /\ model self' = Some tt
    /\ type <$> ds = ["crack"; "unknown_12"; "dent"].
Proof.
  destruct (detect_damage_outcome sample_library
              {| model_path := "best.pt"; model := None |} "car.jpg" 0.5%Q)
    as (out & self' & Hrun & Hnone & Hsome & _).
  destruct out as [ds|].
  - destruct (Hsome ds eq_refl) as (m & Hm & _ & Hds).
    exists ds, self'. split; [exact Hrun|].
    destruct m. split; [exact Hm|]. rewrite Hds. reflexivity.
  - exfalso. destruct (proj1 Hnone eq_refl) as [[_ Hf] | Hf]; discriminate Hf.
Defined.

Lemma unknown_not_known (text name : string) (class_id : Z) :
  damage_classes !! class_id = Some name -> "unknown_" +:+ text <> name.
Proof.
  intros Hin Heq. apply damage_classes_known in Hin.
  repeat (apply elem_of_cons in Hin as [[= -> ->] | Hin]; [discriminate Heq|]).
  now apply elem_of_nil in Hin.
Qed.

Lemma append_cancel_l (s a b : string) : s +:+ a = s +:+ b -> a = b.
Proof.
  induction s as [|c s IH]; cbn; [trivial|].
  intros [= Heq]. now apply IH.
Qed.

Lemma damage_type_of_inj (a b : Z) :
  damage_type_of a = damage_type_of b -> a = b.
Proof.
  unfold damage_type_of.
  destruct (damage_classes !! a) as [na|] eqn:Ea,
           (damage_classes !! b) as [nb|] eqn:Eb; cbn [default from_option id].
  - unfold id. intros <-.
    apply damage_classes_known in Ea, Eb.
    repeat (apply elem_of_cons in Ea as [[= -> ->] | Ea];
            [repeat (apply elem_of_cons in Eb as [Heq | Eb];
                     [first [discriminate Heq
                            | injection Heq as ->; reflexivity]|]);
             now apply elem_of_nil in Eb|]).
    now apply elem_of_nil in Ea.
  - unfold id. intros Heq. symmetry in Heq.
    now apply (unknown_not_known _ _ _ Ea) in Heq.
  - unfold id. intros Heq.
    now apply (unknown_not_known _ _ _ Eb) in Heq.
  - intros Heq. apply append_cancel_l in Heq.
    now apply pretty_Z_inj in Heq.
Qed.

Lemma damage_type_of_severe (class_id : Z) :
  is_severe_type (damage_type_of class_id) = severe_class class_id.
Proof.
  unfold damage_type_of.
  destruct (damage_classes !! class_id) as [name|] eqn:E;
    cbn [default from_option]; unfold id.
  - apply damage_classes_known in E.
    repeat (apply elem_of_cons in E as [[= -> ->] | E]; [reflexivity|]).
    now apply elem_of_nil in E.
  - assert (Hout : ~ (0 <= class_id <= 9)%Z).
    { rewrite <- damage_classes_range, E. intros [? ?]. discriminate. }
    unfold is_severe_type, severe_class.
    rewrite !bool_decide_eq_false_2; [reflexivity | lia |].
    cbn. intros [H|[H|H]]; discriminate H.
Qed.

Lemma damage_type_of_named (class_id : Z) :
  damage_type_of class_id ∈ Annotations.names <-> (0 <= class_id <= 9)%Z.
Proof.
  rewrite <- damage_classes_range. unfold damage_type_of. split.
  - intros Hin. destruct (damage_classes !! class_id) as [name|]; [eauto|].
    exfalso. cbn in Hin.
    repeat (apply elem_of_cons in Hin as [Hin | Hin]; [discriminate Hin|]).
    now apply elem_of_nil in Hin.
  - intros [name Hname]. rewrite Hname. cbn [default from_option]. unfold id.
    apply damage_classes_known in Hname.
    repeat (apply elem_of_cons in Hname as [[= -> ->] | Hname];
            [cbn; set_solver|]).
    now apply elem_of_nil in Hname.
Qed.

(** X13: the type of a detection is decided by the class id of its box:
    two boxes get the same type exactly when their class ids are equal (an
    unknown id gets a type of its own), the type is one of the ten class
    names exactly for ids 0 to 9, and it is a severe type exactly for ids
    2, 3 and 9. *)
Theorem damage_type_by_class_id (b1 b2 : yolo_box) :
  (type (damage_info b1) = type (damage_info b2)
   <-> py_int (cls b1) = py_int (cls b2))
  /\ (type (damage_info b1) ∈ Annotations.names
      <-> (0 <= py_int (cls b1) <= 9)%Z)
  /\ is_severe_type (type (damage_info b1)) = severe_class (py_int (cls b1)).
Proof.
  rewrite !damage_info_type.
  split; [|split].
  - split; [apply damage_type_of_inj | now intros ->].
  - apply damage_type_of_named.
  - apply damage_type_of_severe.
Qed.

Lemma severe_count_damage_info (bs : list yolo_box) :
  severe_count (damage_info <$> bs)
  = length (List.filter (fun b => severe_class (py_int (cls b))) bs).
Proof.
  unfold severe_count. induction bs as [|b bs IH]; [reflexivity|].
  cbn [fmap list_fmap List.filter].
  rewrite damage_info_type, damage_type_of_severe.
  destruct (severe_class (py_int (cls b))); cbn [length]; now rewrite IH.
Qed.

(** X14: the severity of what [detect_damage] collects is decided by the
    class ids alone: the number of detections is the number of boxes, the
    severe ones are the boxes of class 2, 3 or 9, and the tier follows from
    these two counts. *)
Theorem severity_from_class_ids (results : list yolo_result) :
  length (collect_damages results) = box_count results
  /\ severe_count (collect_damages results)
     = length (List.filter (fun b => severe_class (py_int (cls b)))
                           (all_boxes results))
  /\ severity (collect_damages results)
     = Some (severity_of_counts
               (length (List.filter (fun b => severe_class (py_int (cls b)))
                                    (all_boxes results)))
               (box_count results)).
Proof.
  assert (Hlen : length (collect_damages results) = box_count results).
  { rewrite collect_damages_boxes, length_fmap. reflexivity. }
  assert (Hsev : severe_count (collect_damages results)
                 = length (List.filter (fun b => severe_class (py_int (cls b)))
                                       (all_boxes results))).
  { rewrite collect_damages_boxes. apply severe_count_damage_info. }
  split; [exact Hlen|]. split; [exact Hsev|].
  now rewrite severity_counts, Hsev, Hlen.
Qed.

Lemma colors_known (name : string) (c : Z * Z * Z) :
  colors !! name = Some c ->
  (name, c) ∈
    [ ("scratch", (0, 255, 255)); ("dent", (255, 0, 0)); ("crack", (0, 0, 255));
      ("glass_damage", (255, 255, 0)); ("paint_damage", (255, 0, 255));
      ("bumper_damage", (0, 255, 0)); ("headlight_damage", (128, 0, 128));
      ("tire_damage", (255, 165, 0)); ("rust", (139, 69, 19));
      ("broken_part", (128, 128, 128)) ]%Z.
Proof. apply elem_of_list_to_map_2. Qed.

(** X15: in [visualize_detections] every class the detector can name has
    a colour of its own, none of them white; a box of an unknown class is
    drawn in the default white. *)
Theorem colors_cover_classes :
  (forall class_id name,
      damage_classes !! class_id = Some name ->
      exists c, colors !! name = Some c /\ c <> (255, 255, 255)%Z
                /\ color_of name = c)
  /\ (forall n1 n2 c,
        colors !! n1 = Some c -> colors !! n2 = Some c -> n1 = n2)
  /\ (forall class_id,
        damage_classes !! class_id = None ->
        color_of (damage_type_of class_id) = (255, 255, 255)%Z).
Proof.
  split; [|split].
  - intros class_id name Hin. apply damage_classes_known in Hin.
    repeat (apply elem_of_cons in Hin as [[= -> ->] | Hin];
            [eexists; split; [reflexivity|]; split; [discriminate | reflexivity]|]).
    now apply elem_of_nil in Hin.
  - intros n1 n2 c H1 H2. apply colors_known in H1, H2.
    repeat (apply elem_of_cons in H1 as [[= -> ->] | H1];
            [repeat (apply elem_of_cons in H2 as [Heq | H2];
                     [first [discriminate Heq
                            | injection Heq as ->; reflexivity]|]);
             now apply elem_of_nil in H2|]).
    now apply elem_of_nil in H1.
  - intros class_id Hnone. unfold damage_type_of, color_of. rewrite Hnone.
    cbn [default from_option].
    destruct (colors !! ("unknown_" +:+ pretty class_id)) as [c|] eqn:E;
      [|reflexivity].
    exfalso. apply colors_known in E. cbn in E.
    repeat (apply elem_of_cons in E as [E | E]; [discriminate E|]).
    now apply elem_of_nil in E.
Qed.

Lemma colors_cover_classes_witness :
  (exists c, colors !! "rust" = Some c /\ c <> (255, 255, 255)%Z
             /\ color_of "rust" = c)
  /\ color_of (damage_type_of 12) = (255, 255, 255)%Z.
Proof.
  destruct colors_cover_classes as (Hknown & _ & Hunknown).
  split.
  - apply (Hknown 8%Z). reflexivity.
  - apply Hunknown. reflexivity.
Defined.

End Detector.

(** * Properties of the label loop (convert_to_yolo.py) *)

Section LabelLoop.
Import VehiDEToYOLO Annotations Views.

Lemma write_labels_cons (d : damage_annotation) (rest : list damage_annotation)
    (W H : Z) (file : list label) :
  write_labels (d :: rest) W H file
  = if selected d then
      match line_result d W H with
      | Ok line => write_labels rest W H (file ++ [line])
      | Raise e => (file, Some e)
      end
    else write_labels rest W H file.
Proof. reflexivity. Qed.

Lemma selected_class (d : damage_annotation) :
  selected d = true ->
  exists t class_id,
    effective_type d = Some t /\ damage_classes !! t = Some class_id.
Proof.
  unfold selected. intros Hsel. apply andb_prop in Hsel as [Hin _].
  destruct (effective_type d) as [t|]; [|discriminate].
  cbn in Hin. apply bool_decide_eq_true in Hin.
  apply elem_of_dom in Hin as [class_id Hid]. eauto.
Qed.

Lemma line_result_selected (d : damage_annotation) (W H : Z) :
  selected d = true ->
  exists t class_id,
    effective_type d = Some t /\ damage_classes !! t = Some class_id
    /\ line_result d W H
       = (yolo_bbox ← convert_bbox_to_yolo (default [] (effective_bbox d))
                        (inject_Z W) (inject_Z H);
          mret (class_id, yolo_bbox)).
Proof.
  intros Hsel. destruct (selected_class d Hsel) as (t & class_id & Ht & Hid).
  exists t, class_id. split; [exact Ht|]. split; [exact Hid|].
  unfold line_result, DamageDetector.getitem.
  rewrite Ht. cbn [default from_option]. unfold id. now rewrite Hid.
Qed.

(** The loop when every conversion succeeds. *)
Lemma write_labels_ok (W H : Z) (damages : list damage_annotation) :
  forall file,
    Forall (converts W H) damages ->
    exists lines,
      write_labels damages W H file = ((file ++ lines)%list, None)
      /\ Forall2 (written_for W H) lines (List.filter selected damages).
Proof.
  induction damages as [|d rest IH]; intros file Hall.
  - exists []. cbn. rewrite app_nil_r. split; [reflexivity | constructor].
  - apply Forall_cons in Hall as [Hd Hrest].
    rewrite write_labels_cons. cbn [List.filter].
    destruct (selected d) eqn:Hsel.
    + destruct (line_result_selected d W H Hsel)
        as (t & class_id & Ht & Hid & Hline).
      destruct (Hd Hsel) as [yolo Hyolo].
      rewrite Hline, Hyolo. cbn [mbind result_bind mret result_ret].
      destruct (IH (file ++ [(class_id, yolo)])%list Hrest) as (lines & Hrun & Hrel).
      exists ((class_id, yolo) :: lines).
      rewrite Hrun, <- app_assoc. split; [reflexivity|].
      constructor; [|exact Hrel].
      exists t. auto.
    + apply IH, Hrest.
Qed.

(** The loop up to the first conversion that raises. *)
Lemma write_labels_raise (W H : Z) (d : damage_annotation) (e : exn)
    (post pre : list damage_annotation) :
  forall file,
    Forall (converts W H) pre ->
    selected d = true ->
    convert_bbox_to_yolo (default [] (effective_bbox d))
      (inject_Z W) (inject_Z H) = Raise e ->
    exists lines,
      write_labels (pre ++ d :: post) W H file = ((file ++ lines)%list, Some e)
      /\ Forall2 (written_for W H) lines (List.filter selected pre).
Proof.
  induction pre as [|p pre IH]; intros file Hall Hsel Hraise.
  - exists []. cbn [app List.filter]. rewrite write_labels_cons, Hsel.
    destruct (line_result_selected d W H Hsel) as (t & class_id & _ & _ & Hline).
    rewrite Hline, Hraise, app_nil_r. split; [reflexivity | constructor].
  - apply Forall_cons in Hall as [Hp Hpre].
    cbn [app]. rewrite write_labels_cons. cbn [List.filter].
    destruct (selected p) eqn:Hselp.
    + destruct (line_result_selected p W H Hselp)
        as (t & class_id & Ht & Hid & Hline).
      destruct (Hp Hselp) as [yolo Hyolo].
      rewrite Hline, Hyolo. cbn [mbind result_bind mret result_ret].
      destruct (IH (file ++ [(class_id, yolo)])%list Hpre Hsel Hraise)
        as (lines & Hrun & Hrel).
      exists ((class_id, yolo) :: lines).
      rewrite Hrun, <- app_assoc. split; [reflexivity|].
      constructor; [|exact Hrel].
      exists t. auto.
    + apply IH; assumption.
Qed.

Lemma inject_Z_nonzero (n : Z) : n <> 0%Z -> ~ (inject_Z n == 0)%Q.
Proof. intros Hn E. unfold Qeq in E. cbn in E. lia. Qed.

Lemma four_entries (b : list Q) :
  length b = 4 -> exists x1 y1 x2 y2, b = [x1; y1; x2; y2].
Proof.
  destruct b as [|x1 [|y1 [|x2 [|y2 [|? ?]]]]]; try discriminate. eauto.
Qed.



Lemma class_id_names_type (t : string) (class_id : Z) :
  damage_classes !! t = Some class_id ->
  Inference.damage_classes !! class_id = Some t.
Proof.
  intros Hin. apply annotation_classes_known in Hin.
  unfold damage_class_items in Hin.
  repeat (apply elem_of_cons in Hin as [[= -> ->] | Hin]; [reflexivity|]).
  now apply elem_of_nil in Hin.
Qed.



(** X17: a non-empty ['type'] is used as it is, so a type outside the
    table makes the loop skip the entry whatever ['class'] says; ['class']
    is consulted only when ['type'] is missing or empty.  An entry whose
    ['bbox'] and ['bounding_box'] are both missing or empty is skipped. *)
Theorem entry_selection (d : damage_annotation)
    (rest : list damage_annotation) (W H : Z) (file : list label) :
  (forall t, get_type d = Some t -> t <> "" ->
             effective_type d = Some t
             /\ (t ∉ dom damage_classes ->
                 write_labels (d :: rest) W H file = write_labels rest W H file))
  /\ (get_type d = None \/ get_type d = Some "" ->
      effective_type d = get_class d)
  /\ (get_bbox d = None \/ get_bbox d = Some [] ->
      get_bounding_box d = None \/ get_bounding_box d = Some [] ->
      write_labels (d :: rest) W H file = write_labels rest W H file).
Proof.
  split; [|split].
  - intros t Ht Hne.
    assert (Heff : effective_type d = Some t).
    { unfold effective_type, py_or, truthy_str. rewrite Ht.
      destruct (String.eqb_spec t ""); [contradiction | reflexivity]. }
    split; [exact Heff|]. intros Hout.
    rewrite write_labels_cons. unfold selected. rewrite Heff.
    cbn [in_damage_classes]. now rewrite bool_decide_eq_false_2.
  - intros [Ht | Ht]; unfold effective_type, py_or; now rewrite Ht.
  - intros Hb Hbb. rewrite write_labels_cons.
    assert (Hfalse : truthy_list (effective_bbox d) = false).
    { unfold effective_bbox, py_or.
      destruct Hb as [-> | ->]; cbn; destruct Hbb as [-> | ->]; reflexivity. }
    unfold selected. rewrite Hfalse. now rewrite andb_false_r.
Qed.

Lemma entry_selection_witness :
  write_labels
    [ entry (Some "Scratch") (Some "scratch") (Some [10; 20; 30; 40]%Q) None ]
    100 200 [] = ([], None)
  /\ effective_type (entry (Some "") (Some "scratch") None None)
     = Some "scratch"
  /\ write_labels [ entry (Some "dent") None (Some []) None ] 100 200 []
     = ([], None).
Proof.
  split; [|split].
  - destruct (entry_selection
                (entry (Some "Scratch") (Some "scratch")
                       (Some [10; 20; 30; 40]%Q) None) [] 100 200 [])
      as (Htype & _ & _).
    destruct (Htype "Scratch" eq_refl) as [_ Hskip]; [discriminate|].
    rewrite Hskip; [reflexivity|].
    intros Hin. apply elem_of_dom in Hin as [class_id Hid].
    vm_compute in Hid. discriminate Hid.
  - apply (entry_selection (entry (Some "") (Some "scratch") None None)
                           [] 0 0 []).
    now right.
  - destruct (entry_selection (entry (Some "dent") None (Some []) None)
                              [] 100 200 [])
      as (_ & _ & Hbox).
    rewrite Hbox; [reflexivity | now right | now left].
Defined.

(** X18: the first selected entry whose conversion raises ends the loop
    with that exception: [ValueError] when its box does not have four
    numbers, [ZeroDivisionError] when it has four and a dimension is zero.
    The lines of the entries before it are written and stay, nothing is
    written for the entries after it. *)
Theorem labels_stop_at_first_error (W H : Z) (d : damage_annotation)
    (e : exn) (pre post : list damage_annotation) (file : list label) :
  Forall (converts W H) pre ->
  selected d = true ->
  (length (default [] (effective_bbox d)) <> 4 /\ e = ValueError)
  \/ (length (default [] (effective_bbox d)) = 4
      /\ (W = 0%Z \/ H = 0%Z) /\ e = ZeroDivisionError) ->
  exists lines,
    write_labels (pre ++ d :: post) W H file = ((file ++ lines)%list, Some e)
    /\ Forall2 (written_for W H) lines (List.filter selected pre).
Proof.
  intros Hpre Hsel Hcause.
  apply write_labels_raise; [exact Hpre | exact Hsel |].
  destruct Hcause as [[Hlen ->] | (Hlen & Hzero & ->)].
  - set (b := default [] (effective_bbox d)) in *.
    destruct b as [|a [|b' [|c [|d' [|? ?]]]]]; try reflexivity.
    now contradiction Hlen.
  - destruct (four_entries _ Hlen) as (x1 & y1 & x2 & y2 & ->).
    apply convert_bbox_to_yolo_zero.
    destruct Hzero as [-> | ->]; [left | right]; reflexivity.
Qed.

Lemma labels_stop_at_first_error_witness :
  exists lines,
    write_labels
      ([ entry (Some "dent") None (Some [10; 20; 30; 40]%Q) None ]
       ++ entry (Some "rust") None (Some [1; 2; 3]%Q) None
       :: [ entry (Some "crack") None (Some [0; 0; 50; 100]%Q) None ])
      100 200 [] = (lines, Some ValueError)
    /\ length lines = 1.
Proof.
  destruct (labels_stop_at_first_error 100 200
              (entry (Some "rust") None (Some [1; 2; 3]%Q) None) ValueError
              [ entry (Some "dent") None (Some [10; 20; 30; 40]%Q) None ]
              [ entry (Some "crack") None (Some [0; 0; 50; 100]%Q) None ] [])
    as (lines & Hrun & Hrel).
  - repeat constructor. intros _. eexists. reflexivity.
  - reflexivity.
  - left. split; [discriminate | reflexivity].
  - exists lines. split; [exact Hrun|].
    apply Forall2_length in Hrel. exact Hrel.
Defined.

Lemma Forall_filter_selected (P : damage_annotation -> Prop)
    (damages : list damage_annotation) :
  Forall (fun d => selected d = true -> P d) damages ->
  Forall P (List.filter selected damages).
Proof.
  induction 1 as [|d ds Hd _ IH]; cbn [List.filter]; [constructor|].
  destruct (selected d) eqn:Hsel; [constructor; auto | exact IH].
Qed.

Lemma inject_Z_pos (n : Z) : (0 < n)%Z -> (0 < inject_Z n)%Q.
Proof. intros Hn. unfold Qlt. cbn. lia. Qed.

(** X19: when the image dimensions are positive and every selected box has
    four numbers and lies inside the image, the loop raises nothing and
    every number of every line it writes lies in [0,1]. *)
Theorem labels_in_unit_square (damages : list damage_annotation) (W H : Z)
    (file : list label) :
  (0 < W)%Z -> (0 < H)%Z ->
  Forall (fun d => selected d = true ->
                   exists x1 y1 x2 y2,
                     effective_bbox d = Some [x1; y1; x2; y2]
                     /\ inside_image x1 y1 x2 y2 (inject_Z W) (inject_Z H))
         damages ->
  exists lines,
    write_labels damages W H file = ((file ++ lines)%list, None)
    /\ length lines = length (List.filter selected damages)
    /\ Forall (fun line => Forall in_unit line.2) lines.
Proof.
  intros HW HH Hall.
  assert (HW0 : ~ (inject_Z W == 0)%Q) by (apply inject_Z_nonzero; lia).
  assert (HH0 : ~ (inject_Z H == 0)%Q) by (apply inject_Z_nonzero; lia).
  assert (Hconv : Forall (converts W H) damages).
  { eapply Forall_impl; [exact Hall|]. intros d Hd Hsel.
    destruct (Hd Hsel) as (x1 & y1 & x2 & y2 & -> & _).
    eexists. now apply convert_bbox_to_yolo_nonzero. }
  destruct (write_labels_ok W H damages file Hconv) as (lines & Hrun & Hrel).
  exists lines. split; [exact Hrun|].
  split; [exact (Forall2_length _ _ _ Hrel)|].
  apply Forall_filter_selected in Hall. clear Hrun Hconv.
  induction Hrel as [|line d lines ds (t & _ & _ & Hline) _ IH];
    [constructor|].
  apply Forall_cons in Hall as [Hd Hds].
  constructor; [|exact (IH Hds)].
  destruct Hd as (x1 & y1 & x2 & y2 & Hbox & Hx1 & Hx12 & Hx2 & Hy1 & Hy12 & Hy2).
  rewrite Hbox in Hline. cbn [default from_option] in Hline. unfold id in Hline.
  rewrite (convert_bbox_to_yolo_nonzero _ _ _ _ _ _ HW0 HH0) in Hline.
  injection Hline as <-.
  pose proof (inject_Z_pos W HW). pose proof (inject_Z_pos H HH).
  repeat constructor;
    first [apply center_in_unit | apply extent_in_unit]; assumption.
Qed.

Lemma labels_in_unit_square_witness :
  exists lines,
    write_labels
      [ entry (Some "dent") None (Some [10; 20; 30; 40]%Q) None;
        entry None (Some "rust") None (Some [0; 0; 100; 200]%Q) ]
      100 200 [] = (lines, None)
    /\ length lines = 2
    /\ Forall (fun line => Forall in_unit line.2) lines.
Proof.
  apply (labels_in_unit_square
           [ entry (Some "dent") None (Some [10; 20; 30; 40]%Q) None;
             entry None (Some "rust") None (Some [0; 0; 100; 200]%Q) ]
           100 200 []); [lia | lia |].
  repeat constructor; intros _; eexists _, _, _, _;
    (split; [reflexivity|]);
    unfold inside_image, Qle; cbn; lia.
Defined.

(** X20: the class id written for an entry names, in the detector's class
    table, exactly the type the entry was annotated with: what the
    converter writes as a label, the detector reads back as that type. *)
Theorem label_ids_name_types (damages : list damage_annotation) (W H : Z)
    (file : list label) :
  Forall (converts W H) damages ->
  exists lines,
    write_labels damages W H file = ((file ++ lines)%list, None)
    /\ Forall2 (fun line d =>
                  Inference.damage_classes !! line.1 = effective_type d
                  /\ damage_type_of line.1 = default "" (effective_type d))
               lines (List.filter selected damages).
Proof.
  intros Hconv.
  destruct (write_labels_ok W H damages file Hconv) as (lines & Hrun & Hrel).
  exists lines. split; [exact Hrun|]. clear Hrun.
  induction Hrel as [|line d lines ds (t & Ht & Hid & _) _ IH];
    constructor; [|exact IH].
  apply class_id_names_type in Hid.
  unfold damage_type_of. rewrite Hid, Ht. auto.
Qed.

Lemma label_ids_name_types_witness :
  exists lines,
    write_labels
      [ entry (Some "glass_damage") None (Some [10; 20; 30; 40]%Q) None ]
      100 200 [] = (lines, None)
    /\ Forall2 (fun line d =>
                  Inference.damage_classes !! line.1 = effective_type d
                  /\ damage_type_of line.1 = default "" (effective_type d))
               lines
               [ entry (Some "glass_damage") None (Some [10; 20; 30; 40]%Q) None ].
Proof.
  apply (label_ids_name_types
           [ entry (Some "glass_damage") None (Some [10; 20; 30; 40]%Q) None ]
           100 200 []).
  repeat constructor. intros _. eexists. reflexivity.
Defined.

End LabelLoop.

(** * Properties of the /detect-damage handler (api_server.py) *)

Section Handler.
Import DamageDetector Inference ApiServer.
Context {Model : Type} (U : ultralytics Model)
        (str_exc : py_exception -> string).

Lemma response_run (h : heap) (items : list detection) (file_name : string)
    (conf : Q) :
  exists response h' a,
    (damages ← alloc (PyList items);
     detect_damage_response damages file_name conf) h = Ok (response, h')
    /\ h' !! response = Some (PyResponse a)
    /\ success a = true /\ filename a = file_name
    /\ confidence_threshold a = conf
    /\ image (report_items a) = file_name
    /\ total_damages (report_items a) = Z.of_nat (length items)
    /\ assess_severity items = Ok (severity_assessment (report_items a))
    /\ h' !! damage_summary (report_items a) = Some (PyCounts (tally items))
    /\ h' !! detailed_damages (report_items a) = Some (PyList items)
    /\ (forall l o, h !! l = Some o -> h' !! l = Some o).
Proof.
  set (damages := fresh (dom h)).
  set (h0 := <[damages := PyList items]> h).
  assert (Hfresh : h !! damages = None) by apply fresh_not_allocated.
  assert (Hds : h0 !! damages = Some (PyList items)) by apply lookup_insert_eq.
  destruct (generate_report_run h0 damages file_name items Hds)
    as (rep & h1 & r & Hrun & Hrep & Hsum & Himg & Htot & Hdet & Hsev
        & Hfr & Hfs & Hframe).
  assert (Hkeep1 : forall l o, h0 !! l = Some o -> h1 !! l = Some o).
  { intros l o Hl. rewrite Hframe; [exact Hl | congruence | congruence]. }
  unfold detect_damage_response.
  rewrite bind_run. unfold alloc at 1. fold damages. fold h0.
  rewrite bind_run, Hrun.
  rewrite bind_run, (load_report_run _ _ _ Hrep).
  unfold alloc.
  set (response := fresh (dom h1)).
  assert (Hnew : h1 !! response = None) by apply fresh_not_allocated.
  assert (Hkeep2 : forall l o, h1 !! l = Some o -> <[response := PyResponse
            {| success := true; filename := file_name;
               confidence_threshold := conf; processing_time := "< 1s";
               api_version := "1.0.0"; report_items := r |}]> h1 !! l = Some o).
  { intros l o Hl. rewrite lookup_insert_ne; [exact Hl | congruence]. }
  eexists response, _, _. split; [reflexivity|].
  split; [apply lookup_insert_eq|].
  cbn [success filename confidence_threshold report_items].
  do 6 (split; [reflexivity || assumption|]).
  split; [now apply Hkeep2|].
  split; [rewrite Hdet; now apply Hkeep2, Hkeep1|].
  intros l o Hl. apply Hkeep2, Hkeep1. subst h0.
  rewrite lookup_insert_ne; [exact Hl | congruence].
Qed.

(** X21: the handler answers with the JSON body or with status 500 and a
    detail that starts with "Processing error: "; no other status leaves
    it.  An upload whose content type does not start with "image/" raises
    the 400 inside the [try], which the [except] turns into a 500, with
    the detector and the heap untouched; a missing content type ends the
    same way.  A JSON body is returned only when the content type passed,
    the upload was decoded and [detect_damage] gave a list. *)
Theorem handler_failures_are_500 (self : detector Model)
    (content_type : option string) (file_name : string)
    (upload : string + string) (conf : Q) (h : heap) :
  exists res self' h',
    detect_damage_endpoint U str_exc self content_type file_name upload conf h
    = (res, self', h')
    /\ ((exists body, res = JSONResponse body)
        \/ (exists e, res = HTTPError 500 ("Processing error: " +:+ str_exc e)))
    /\ (forall status detail, res = HTTPError status detail -> status = 500%Z)
    /\ (forall ct, content_type = Some ct -> String.prefix "image/" ct = false ->
          res = HTTPError 500
                  ("Processing error: "
                   +:+ str_exc (HTTPException 400 "File must be an image"))
          /\ self' = self /\ h' = h)
    /\ (content_type = None ->
          res = HTTPError 500 ("Processing error: " +:+ str_exc AttributeError))
    /\ (forall body, res = JSONResponse body ->
          exists ct temp_path items,
            content_type = Some ct /\ String.prefix "image/" ct = true
            /\ upload = inl temp_path
            /\ detect_damage U self temp_path conf = (Some items, self')).
Proof.
  unfold detect_damage_endpoint, detect_damage_body.
  destruct content_type as [ct|].
  2: { eexists _, _, _. split; [reflexivity|].
       split; [right; eauto|]. split; [now intros ? ? [= <- _]|].
       split; [discriminate|]. split; [reflexivity | discriminate]. }
  destruct (String.prefix "image/" ct) eqn:Ect; cbn [negb].
  2: { eexists _, _, _. split; [reflexivity|].
       split; [right; eauto|]. split; [now intros ? ? [= <- _]|].
       split; [intros ? [= <-] _; auto|].
       split; discriminate. }
  destruct upload as [temp_path | message].
  2: { eexists _, _, _. split; [reflexivity|].
       split; [right; eauto|]. split; [now intros ? ? [= <- _]|].
       split; [intros ? [= <-]; congruence|].
       split; discriminate. }
  destruct (detect_damage U self temp_path conf) as [[items|] self1] eqn:Edet.
  2: { eexists _, _, _. split; [reflexivity|].
       split; [right; eauto|]. split; [now intros ? ? [= <- _]|].
       split; [intros ? [= <-]; congruence|].
       split; discriminate. }
  destruct (response_run h items file_name conf)
    as (response & h' & a & Hrun & _).
  rewrite Hrun.
  eexists _, _, _. split; [reflexivity|].
  split; [left; eauto|]. split; [discriminate|].
  split; [intros ? [= <-]; congruence|].
  split; [discriminate|].
  intros body _. exists ct, temp_path, items. auto.
Qed.

(** X22: when the content type starts with "image/", the upload was
    decoded and [detect_damage] gives a list, the handler returns a body
    with success = True whose file name is also the report's image, whose
    total_damages is the number of detections, whose severity is
    [assess_severity] of them and whose summary and detailed_damages are
    their counts and the list itself; objects that were on the heap are
    unchanged. *)
Theorem handler_success (self self1 : detector Model) (ct file_name : string)
    (temp_path : string) (conf : Q) (h : heap) (items : list detection) :
  String.prefix "image/" ct = true ->
  detect_damage U self temp_path conf = (Some items, self1) ->
  exists body h' a,
    detect_damage_endpoint U str_exc self (Some ct) file_name (inl temp_path)
      conf h = (JSONResponse body, self1, h')
    /\ h' !! body = Some (PyResponse a)
    /\ success a = true /\ filename a = file_name
    /\ confidence_threshold a = conf
    /\ image (report_items a) = file_name
    /\ total_damages (report_items a) = Z.of_nat (length items)
    /\ assess_severity items = Ok (severity_assessment (report_items a))
    /\ h' !! damage_summary (report_items a) = Some (PyCounts (tally items))
    /\ h' !! detailed_damages (report_items a) = Some (PyList items)
    /\ (forall l o, h !! l = Some o -> h' !! l = Some o).
Proof.
  intros Hct Hdet.
  destruct (response_run h items file_name conf)
    as (response & h' & a & Hrun & Hrest).
  exists response, h', a. split; [|exact Hrest].
  unfold detect_damage_endpoint, detect_damage_body.
  rewrite Hct, Hdet. cbn [negb]. now rewrite Hrun.
Qed.

End Handler.

Lemma handler_failures_are_500_witness :
  exists res self' h',
    ApiServer.detect_damage_endpoint Views.sample_library (fun _ => "error")
      {| Inference.model_path := "best.pt"; Inference.model := None |}
      (Some "text/plain") "notes.txt" (inl "car.jpg") 0.5%Q ∅
    = (res, self', h')
    /\ res = ApiServer.HTTPError 500 ("Processing error: " +:+ "error")
    /\ Inference.model self' = None /\ h' = ∅.
Proof.
  destruct (handler_failures_are_500 Views.sample_library (fun _ => "error")
              {| Inference.model_path := "best.pt"; Inference.model := None |}
              (Some "text/plain") "notes.txt" (inl "car.jpg") 0.5%Q ∅)
    as (res & self' & h' & Hrun & _ & _ & Hct & _).
  destruct (Hct "text/plain" eq_refl eq_refl) as (Hres & -> & ->).
  exists res, {| Inference.model_path := "best.pt"; Inference.model := None |}, ∅. auto.
Defined.

Lemma handler_success_witness :
  exists body h' a,
    ApiServer.detect_damage_endpoint Views.sample_library (fun _ => "error")
      {| Inference.model_path := "best.pt"; Inference.model := None |}
      (Some "image/jpeg") "car.jpg" (inl "car.jpg") 0.5%Q ∅
    = (ApiServer.JSONResponse body,
       {| Inference.model_path := "best.pt"; Inference.model := Some tt |}, h')
    /\ h' !! body = Some (DamageDetector.PyResponse a)
    /\ DamageDetector.total_damages (DamageDetector.report_items a) = 3%Z
    /\ DamageDetector.image (DamageDetector.report_items a) = "car.jpg".
Proof.
  destruct (handler_success Views.sample_library (fun _ => "error")
              {| Inference.model_path := "best.pt"; Inference.model := None |}
              {| Inference.model_path := "best.pt"; Inference.model := Some tt |}
              "image/jpeg" "car.jpg" "car.jpg" 0.5%Q ∅
              (Inference.collect_damages Views.sample_boxes))
    as (body & h' & a & Hrun & Hbody & _ & _ & _ & Himg & Htot & _);
    [reflexivity | reflexivity |].
  exists body, h', a. auto.
Defined.

(** * Order of the detections and integer corners *)

Section OrderAndCorners.
Import DamageDetector Inference.

Lemma occurrences_permutation (t : string) (ds1 ds2 : list detection) :
  ds1 ≡ₚ ds2 -> occurrences t ds1 = occurrences t ds2.
Proof.
  induction 1 as [|d ds1 ds2 _ IH|d1 d2 ds|ds1 ds2 ds3 _ IH1 _ IH2].
  - reflexivity.
  - rewrite !occurrences_cons. now rewrite IH.
  - rewrite !occurrences_cons. lia.
  - now rewrite IH1.
Qed.

Lemma tally_permutation (ds1 ds2 : list detection) :
  ds1 ≡ₚ ds2 -> tally ds1 = tally ds2.
Proof.
  intros Hperm. apply map_eq. intros t.
  now rewrite !tally_lookup, (occurrences_permutation t ds1 ds2 Hperm).
Qed.

(** X23: the order of the detections does not show in the report's
    numbers: two lists with the same detections in different orders give
    the same summary dict, the same total and the same severity. *)
Theorem report_ignores_order (h1 h2 : heap) (damages1 damages2 : loc)
    (img : string) (ds1 ds2 : list detection) :
  h1 !! damages1 = Some (PyList ds1) ->
  h2 !! damages2 = Some (PyList ds2) ->
  ds1 ≡ₚ ds2 ->
  exists rep1 h1' r1 rep2 h2' r2 counts,
    generate_report damages1 img h1 = Ok (rep1, h1')
    /\ generate_report damages2 img h2 = Ok (rep2, h2')
    /\ read_report h1' rep1 = Some (r1, counts, ds1)
    /\ read_report h2' rep2 = Some (r2, counts, ds2)
    /\ total_damages r1 = total_damages r2
    /\ severity_assessment r1 = severity_assessment r2.
Proof.
  intros Hds1 Hds2 Hperm.
  destruct (generate_report_view h1 damages1 img ds1 Hds1)
    as (rep1 & h1' & r1 & Hrun1 & _ & Hview1 & Htot1 & _ & Hsev1 & _).
  destruct (generate_report_view h2 damages2 img ds2 Hds2)
    as (rep2 & h2' & r2 & Hrun2 & _ & Hview2 & Htot2 & _ & Hsev2 & _).
  exists rep1, h1', r1, rep2, h2', r2, (tally ds1).
  split; [exact Hrun1|]. split; [exact Hrun2|]. split; [exact Hview1|].
  split; [now rewrite (tally_permutation ds1 ds2 Hperm)|].
  split; [rewrite Htot1, Htot2; now rewrite Hperm|].
  assert (Hsame : assess_severity ds1 = assess_severity ds2).
  { apply assess_severity_counts; [now rewrite Hperm|].
    rewrite <- !severe_filter_length. now rewrite Hperm. }
  congruence.
Qed.

Lemma report_ignores_order_witness :
  exists rep1 h1' r1 rep2 h2' r2 counts,
    generate_report 1%positive "car.jpg"
      (heap_with 1 [sample "crack" 0.9; sample "dent" 0.7]) = Ok (rep1, h1')
    /\ generate_report 4%positive "car.jpg"
         (heap_with 4 [sample "dent" 0.7; sample "crack" 0.9]) = Ok (rep2, h2')
    /\ read_report h1' rep1
       = Some (r1, counts, [sample "crack" 0.9; sample "dent" 0.7])
    /\ read_report h2' rep2
       = Some (r2, counts, [sample "dent" 0.7; sample "crack" 0.9])
    /\ total_damages r1 = total_damages r2
    /\ severity_assessment r1 = severity_assessment r2.
Proof.
  apply (report_ignores_order
           (heap_with 1 [sample "crack" 0.9; sample "dent" 0.7])
           (heap_with 4 [sample "dent" 0.7; sample "crack" 0.9])
           1%positive 4%positive "car.jpg"
           [sample "crack" 0.9; sample "dent" 0.7]
           [sample "dent" 0.7; sample "crack" 0.9]);
    [reflexivity | reflexivity | apply Permutation_swap].
Defined.

Lemma py_int_nonneg (q : Q) :
  (0 <= q)%Q ->
  (inject_Z (py_int q) <= q)%Q /\ (q < inject_Z (py_int q) + 1)%Q.
Proof.
  intros Hq. unfold py_int.
  assert (Hnum : (0 <= Qnum q)%Z).
  { unfold Qle in Hq. cbn in Hq. lia. }
  rewrite Z.quot_div_nonneg by lia.
  assert (Hfloor : (Qnum q / Z.pos (Qden q))%Z = Qfloor q) by now destruct q.
  rewrite Hfloor.
  split; [apply Qfloor_le|].
  pose proof (Qlt_floor q) as Hlt.
  rewrite inject_Z_plus in Hlt. exact Hlt.
Qed.

Lemma py_int_opp (q : Q) : py_int (- q) = (- py_int q)%Z.
Proof. unfold py_int. cbn. apply Z.quot_opp_l. lia. Qed.

Lemma py_int_nonpos (q : Q) :
  (q <= 0)%Q ->
  (q <= inject_Z (py_int q))%Q /\ (inject_Z (py_int q) - 1 < q)%Q.
Proof.
  intros Hq.
  destruct (py_int_nonneg (- q)) as [Hle Hlt]; [lra|].
  rewrite py_int_opp, inject_Z_opp in Hle, Hlt.
  split; lra.
Qed.

(** X24: the integer corners in bbox_formatted are the corners of bbox
    truncated toward zero: each differs from its coordinate by less than
    one pixel, never exceeds a non-negative coordinate and never lies below
    a negative one. *)
Theorem bbox_formatted_truncates (box : yolo_box) :
  Forall2 (fun (c : Q) (n : Z) =>
             ((0 <= c -> inject_Z n <= c /\ c < inject_Z n + 1)
              /\ (c <= 0 -> c <= inject_Z n /\ inject_Z n - 1 < c))%Q)
          (bbox (damage_info box))
          [ x1 (bbox_formatted (damage_info box));
            y1 (bbox_formatted (damage_info box));
            x2 (bbox_formatted (damage_info box));
            y2 (bbox_formatted (damage_info box)) ].
Proof.
  unfold damage_info. destruct (xyxy box) as [[[b0 b1] b2] b3].
  cbn [bbox bbox_formatted x1 y1 x2 y2].
  do 4 (apply List.Forall2_cons;
        [split; [apply py_int_nonneg | apply py_int_nonpos]|]).
  apply List.Forall2_nil.
Qed.

End OrderAndCorners.
